(** * TravelHub self-healing monitor and inventory service

    A shallow embedding of [monitoring/monitor.py] (the control loop that
    removes degraded instances from the Nginx upstream and restores them)
    and of [microservicio_inventario/app.py] (the monitored service's
    admin endpoint), with the properties of the design document stated
    and proved, or refuted, over the embedding.

    Conventions.
    - A Python [str] is a [string]; one [ascii] stands for one code point
      below 256 (texts with code points beyond U+00FF are not covered).
    - A Python [int] is a [Z], a Python [float] is a primitive binary64
      [float] ([val >= threshold] is [PrimFloat.leb threshold val], false
      on NaN).
    - A [dict] keyed by instance is a [gmap string _], a [set] a [gset].
    - The upstream file is its text content, [None] when the path does
      not exist; [open(.., "r")] applies universal-newline translation,
      [open(.., "w")] writes the text as it is (POSIX).
    - A call that can raise returns a [result]; [try .. except] is a
      [match] on it.
    - Logging calls, the two clock readings of a log entry and
      [time.sleep] are left out; the outcome of [reload_nginx], which
      [main] drops, is not part of the state. *)

From Stdlib Require Import ZArith Ascii String List Floats Lia.
From stdpp Require Import gmap strings list.

Set Warnings "-register-all".

(** ** Python runtime pieces used by both programs *)

Module Py.

Definition LF : ascii := ascii_of_nat 10.
Definition CR : ascii := ascii_of_nat 13.

(** [str.isspace] on one code point below 256: TAB..CR, FS..US, space,
    NEL (0x85) and NBSP (0xA0). *)
Definition isspace (c : ascii) : bool :=
  let n := N_of_ascii c in
  ((9 <=? n)%N && (n <=? 13)%N) || ((28 <=? n)%N && (n <=? 32)%N)
  || (n =? 133)%N || (n =? 160)%N.

(** [s.lstrip()] *)
Fixpoint lstrip (s : string) : string :=
  match s with
  | EmptyString => EmptyString
  | String c s' => if isspace c then lstrip s' else s
  end.

(** [s.rstrip()] *)
Fixpoint rstrip (s : string) : string :=
  match s with
  | EmptyString => EmptyString
  | String c s' =>
      match rstrip s' with
      | EmptyString => if isspace c then EmptyString else String c EmptyString
      | r => String c r
      end
  end.

(** [s.strip()] *)
Definition strip (s : string) : string := rstrip (lstrip s).

(** [s.startswith(p)] *)
Definition startswith (s p : string) : bool := String.prefix p s.

(** [k in s] on strings: [k] occurs in [s] as a substring. *)
Fixpoint contains (k s : string) : bool :=
  String.prefix k s ||
  match s with
  | EmptyString => false
  | String _ s' => contains k s'
  end.

(** [s[n:]] *)
Fixpoint slice_from (n : nat) (s : string) : string :=
  match n, s with
  | O, _ => s
  | S n', String _ s' => slice_from n' s'
  | S _, EmptyString => EmptyString
  end.

(** Universal newlines on input: CR LF and a lone CR are read as LF. *)
Fixpoint universal_newlines (s : string) : string :=
  match s with
  | EmptyString => EmptyString
  | String c s' =>
      if Ascii.eqb c CR then
        match s' with
        | String d s'' =>
            if Ascii.eqb d LF then String LF (universal_newlines s'')
            else String LF (universal_newlines s')
        | EmptyString => String LF EmptyString
        end
      else String c (universal_newlines s')
  end.

(** Cutting a text after every LF, the line ends kept. *)
Fixpoint splitlines (s : string) : list string :=
  match s with
  | EmptyString => []
  | String c s' =>
      if Ascii.eqb c LF then String c EmptyString :: splitlines s'
      else match splitlines s' with
           | [] => [String c EmptyString]
           | l :: ls => String c l :: ls
           end
  end.

(** [f.readlines()] on a file opened for reading in text mode. *)
Definition readlines (content : string) : list string :=
  splitlines (universal_newlines content).

(** [f.writelines(lines)] on a file just truncated by [open(.., "w")]. *)
Definition writelines (lines : list string) : string :=
  fold_right String.append EmptyString lines.

(** [c] occurs in [s]. *)
Fixpoint occurs (c : ascii) (s : string) : bool :=
  match s with
  | EmptyString => false
  | String d s' => Ascii.eqb d c || occurs c s'
  end.

(** A line as [readlines] yields them: not empty, no LF before its
    last character. *)
Fixpoint is_line (l : string) : bool :=
  match l with
  | EmptyString => false
  | String c l' =>
      match l' with
      | EmptyString => true
      | _ => negb (Ascii.eqb c LF) && is_line l'
      end
  end.

Fixpoint ends_lf (l : string) : bool :=
  match l with
  | EmptyString => false
  | String c l' =>
      match l' with
      | EmptyString => Ascii.eqb c LF
      | _ => ends_lf l'
      end
  end.

(** Lines that follow one another in a text: every one but the last
    ends with LF. *)
Fixpoint chained (ls : list string) : bool :=
  match ls with
  | [] => true
  | l :: ls' =>
      is_line l && match ls' with [] => true | _ => ends_lf l end
      && chained ls'
  end.

(** A text followed by a line feed. *)
Definition nl (s : string) : string :=
  String.append s (String LF EmptyString).

(** Exceptions the modelled code can meet. *)
Inductive exn : Type :=
| AttributeError | TypeError | KeyError | IndexError | ValueError
| OverflowError.

Inductive result (A : Type) : Type :=
| Ok (a : A)
| Raise (e : exn).
Arguments Ok {A} a.
Arguments Raise {A} e.

(** Sequencing: the first exception raised is the outcome. *)
#[global] Instance result_bind : MBind result :=
  fun A B (k : A -> result B) (r : result A) =>
    match r with
    | Ok a => k a
    | Raise e => Raise e
    end.

(** What [json.loads] returns: [None], [bool], [int], [float], [str],
    [list] or [dict] (string keys, in insertion order). *)
Inductive json : Type :=
| JNull
| JBool (b : bool)
| JInt (z : Z)
| JFloat (f : float)
| JStr (s : string)
| JArr (l : list json)
| JObj (m : list (string * json)).

(** [bool(v)] *)
Definition truthy (v : json) : bool :=
  match v with
  | JNull => false
  | JBool b => b
  | JInt z => negb (z =? 0)%Z
  | JFloat f => negb (PrimFloat.eqb f 0%float)
  | JStr s => negb (String.eqb s EmptyString)
  | JArr l => match l with [] => false | _ => true end
  | JObj m => match m with [] => false | _ => true end
  end.

(** [a or b], [b] evaluated only when [a] is falsy. *)
Definition py_or (a : json) (b : result json) : result json :=
  if truthy a then Ok a else b.

Fixpoint assoc (k : string) (m : list (string * json)) : option json :=
  match m with
  | [] => None
  | (k', v) :: m' => if String.eqb k k' then Some v else assoc k m'
  end.

(** [v.get(k, dflt)]: only a [dict] has the method. *)
Definition py_get (v : json) (k : string) (dflt : json) : result json :=
  match v with
  | JObj m => Ok (default dflt (assoc k m))
  | _ => Raise AttributeError
  end.

(** The values [for item in v] runs over. *)
Definition py_iter (v : json) : result (list json) :=
  match v with
  | JArr l => Ok l
  | JObj m => Ok (map (fun kv => JStr (fst kv)) m)
  | JStr s => Ok (map (fun c => JStr (String c EmptyString))
                      (list_ascii_of_string s))
  | _ => Raise TypeError
  end.

(** [v[1]] *)
Definition py_index1 (v : json) : result json :=
  match v with
  | JArr l => match l with
              | _ :: x :: _ => Ok x
              | _ => Raise IndexError
              end
  | JStr s => match s with
              | String _ (String c _) => Ok (JStr (String c EmptyString))
              | _ => Raise IndexError
              end
  | JObj _ => Raise KeyError
  | _ => Raise TypeError
  end.

(** [float(n)] of an [int]: the nearest binary64, [OverflowError] when
    it is out of range. *)
Definition float_of_int (z : Z) : result float :=
  match binary_normalize 53 1024 z 0 false with
  | S754_infinity _ => Raise OverflowError
  | x => Ok (SF2Prim x)
  end.

(** [float(v)]; [float_of_str] is the builtin's reading of a string,
    [None] where it raises [ValueError]. *)
Definition py_float (float_of_str : string -> option float) (v : json)
  : result float :=
  match v with
  | JStr s => match float_of_str s with
              | Some f => Ok f
              | None => Raise ValueError
              end
  | JInt z => float_of_int z
  | JFloat f => Ok f
  | JBool b => Ok (if b then 1%float else 0%float)
  | _ => Raise TypeError
  end.

(** [f == z] for a [float] and an [int]: exact comparison. *)
Definition float_eq_int (f : float) (z : Z) : bool :=
  match Prim2SF f with
  | S754_zero _ => (z =? 0)%Z
  | S754_finite sg m e =>
      let v := if sg then Z.neg m else Z.pos m in
      if (0 <=? e)%Z then (z =? v * 2 ^ e)%Z
      else ((v mod 2 ^ (- e) =? 0) && (z =? v / 2 ^ (- e)))%Z
  | _ => false
  end.

(** [a == b] between hashable values ([bool] is an [int]). *)
Definition key_eqb (a b : json) : bool :=
  let num v := match v with
               | JBool b => JInt (if b then 1 else 0)
               | _ => v
               end in
  match num a, num b with
  | JNull, JNull => true
  | JStr x, JStr y => String.eqb x y
  | JInt x, JInt y => (x =? y)%Z
  | JFloat x, JFloat y => PrimFloat.eqb x y
  | JFloat x, JInt y | JInt y, JFloat x => float_eq_int x y
  | _, _ => false
  end.

Definition hashable (v : json) : bool :=
  match v with
  | JArr _ | JObj _ => false
  | _ => true
  end.

(** [d[k] = v] on a [dict] kept as its items in insertion order. *)
Fixpoint dict_store {V} (d : list (json * V)) (k : json) (v : V)
  : list (json * V) :=
  match d with
  | [] => [(k, v)]
  | (k', v') :: d' =>
      if key_eqb k' k then (k', v) :: d' else (k', v') :: dict_store d' k v
  end.

Definition dict_setitem {V} (d : list (json * V)) (k : json) (v : V)
  : result (list (json * V)) :=
  if hashable k then Ok (dict_store d k v) else Raise TypeError.

(** A loop whose body may raise. *)
Fixpoint for_each {A S} (body : S -> A -> result S) (xs : list A) (s : S)
  : result S :=
  match xs with
  | [] => Ok s
  | x :: xs' => s' ← body s x; for_each body xs' s'
  end.

End Py.

(** ** monitoring/monitor.py: the upstream editor *)

Module Editor.
Import Py.

(** The file at [UPSTREAM_PATH]: its text, or [None] when absent. *)
Definition fs : Type := option string.

(** [f"# removed-by-monitor:{instance} "] *)
Definition marker (instance : string) : string :=
  String.append "# removed-by-monitor:" (String.append instance " ").

(** The test of line 78. *)
Definition is_live_entry_of (instance ln : string) : bool :=
  let stripped := strip ln in
  contains instance ln && startswith stripped "server"
  && negb (startswith stripped "#").

(** One turn of the loop of lines 76-82 over [(changed, new_lines)]. *)
Definition comment_step (instance : string)
    (acc : bool * list string) (ln : string) : bool * list string :=
  let '(changed, new_lines) := acc in
  if is_live_entry_of instance ln
  then (true, new_lines ++ [String.append (marker instance) (lstrip ln)])
  else (changed, new_lines ++ [ln]).

Definition comment_loop (instance : string) (lines : list string)
  : bool * list string :=
  fold_left (comment_step instance) lines (false, []).

(** [comment_server_in_upstream(instance, dry_run)]: the returned
    [changed] and the file afterwards. *)
Definition comment_server_in_upstream (instance : string) (dry_run : bool)
    (f : fs) : bool * fs :=
  match f with
  | None => (false, f)
  | Some content =>
      let lines := readlines content in
      let '(changed, new_lines) := comment_loop instance lines in
      if negb changed then (false, f)
      else if dry_run then (true, f)
      else (true, Some (writelines new_lines))
  end.

(** One turn of the loop of lines 108-113. *)
Definition restore_step (instance : string)
    (acc : bool * list string) (ln : string) : bool * list string :=
  let '(changed, new_lines) := acc in
  let marker := marker instance in
  if startswith ln marker
  then (true, new_lines ++
                [String.append "    " (slice_from (String.length marker) ln)])
  else (changed, new_lines ++ [ln]).

Definition restore_loop (instance : string) (lines : list string)
  : bool * list string :=
  fold_left (restore_step instance) lines (false, []).

(** [restore_server_in_upstream(instance, dry_run)] *)
Definition restore_server_in_upstream (instance : string) (dry_run : bool)
    (f : fs) : bool * fs :=
  match f with
  | None => (false, f)
  | Some content =>
      let lines := readlines content in
      let '(changed, new_lines) := restore_loop instance lines in
      if negb changed then (false, f)
      else if dry_run then (true, f)
      else (true, Some (writelines new_lines))
  end.

(** What the two loops do to one line. *)
Definition disabled_form (instance ln : string) : string :=
  if is_live_entry_of instance ln
  then String.append (marker instance) (lstrip ln) else ln.

Definition enabled_form (instance ln : string) : string :=
  if startswith ln (marker instance)
  then String.append "    "
         (slice_from (String.length (marker instance)) ln)
  else ln.

(** A live entry after it was disabled and enabled again: its text
    without the leading white space, behind four spaces. *)
Definition restored_form (instance ln : string) : string :=
  if is_live_entry_of instance ln
  then String.append "    " (lstrip ln) else ln.

(** The lines the editor takes for an entry of [instance]: the ones
    [comment_server_in_upstream] or [restore_server_in_upstream] would
    rewrite for it. *)
Definition belongs_to (instance ln : string) : bool :=
  is_live_entry_of instance ln || startswith ln (marker instance).

(** The lines a reader finds in the file. *)
Definition file_lines (f : fs) : list string :=
  match f with
  | Some content => readlines content
  | None => []
  end.

(** The file after a committed disable, and after a committed disable
    followed by a committed enable. *)
Definition after_disable (instance content : string) : fs :=
  (comment_server_in_upstream instance false (Some content)).2.

Definition after_disable_enable (instance content : string) : fs :=
  (restore_server_in_upstream instance false
     (after_disable instance content)).2.

(** The round trip: the file at the end holds, line for line, the
    restored forms of the lines it held at the start. *)
Definition round_trip (instance content : string) : Prop :=
  file_lines (after_disable_enable instance content)
  = map (restored_form instance) (readlines content).

(** A call of the editor, and a sequence of calls with the booleans
    they return. *)
Inductive edit : Type :=
| Disable (instance : string)
| Enable (instance : string).

Definition apply_edit (dry_run : bool) (e : edit) (f : fs) : bool * fs :=
  match e with
  | Disable instance => comment_server_in_upstream instance dry_run f
  | Enable instance => restore_server_in_upstream instance dry_run f
  end.

Fixpoint run_edits (dry_run : bool) (es : list edit) (f : fs)
  : list bool * fs :=
  match es with
  | [] => ([], f)
  | e :: es' =>
      let '(b, f') := apply_edit dry_run e f in
      let '(bs, f'') := run_edits dry_run es' f' in
      (b :: bs, f'')
  end.

(** No line of the file holds the marker of [instance]. *)
Definition marker_free (instance content : string) : bool :=
  forallb (fun ln => negb (contains (marker instance) ln))
          (readlines content).

End Editor.

(** ** monitoring/monitor.py: the health feed *)

Module Prom.
Import Py.

(** What [requests.get] meets: an exception (connection refused,
    timeout), or a response with its status code and its body as
    [r.json()] reads it ([None]: the body is not JSON). *)
Inductive http_reply : Type :=
| TransportError
| Response (status_code : Z) (body : option json).

(** [r.raise_for_status()] raises on 4xx and 5xx. *)
Definition raise_for_status (status_code : Z) : bool :=
  (400 <=? status_code)%Z && (status_code <? 600)%Z.

(** [query_prom]: Python's [None] is [JNull]. *)
Definition query_prom (reply : http_reply) : json :=
  match reply with
  | TransportError => JNull
  | Response code body =>
      if raise_for_status code then JNull
      else match body with
           | Some j => j
           | None => JNull
           end
  end.

Section Parse.
Variable float_of_str : string -> option float.

(** The body of the loop of lines 53-61. *)
Definition parse_item (out : list (json * float)) (item : json)
  : result (list (json * float)) :=
  metric ← py_get item "metric" (JObj []);
  i ← py_get metric "instance" JNull;
  instance ← py_or i (py_get metric "job" JNull);
  match (v ← py_get item "value" (JArr []);
         x ← py_index1 v;
         py_float float_of_str x) with
  | Raise _ => Ok out
  | Ok value =>
      if truthy instance then dict_setitem out instance value else Ok out
  end.

Definition is_success (status : json) : bool :=
  match status with
  | JStr s => String.eqb s "success"
  | _ => false
  end.

(** [parse_inventory_states(prom_json)] *)
Definition parse_inventory_states (prom_json : json)
  : result (list (json * float)) :=
  if negb (truthy prom_json) then Ok []
  else
    status ← py_get prom_json "status" JNull;
    if negb (is_success status) then Ok []
    else
      data ← py_get prom_json "data" (JObj []);
      res ← py_get data "result" (JArr []);
      items ← py_iter res;
      for_each parse_item items [].

(** The entry a result of the expected shape stands for, in the words
    of the design document: the instance label, else the job label, with
    the second element of [value] read as a float, and nothing when the
    label is missing or the value cannot be read. *)
Definition text_label (o : option json) : option string :=
  match o with
  | Some (JStr s) => if String.eqb s EmptyString then None else Some s
  | _ => None
  end.

Definition label_of (metric : list (string * json)) : option string :=
  match text_label (assoc "instance" metric) with
  | Some s => Some s
  | None => text_label (assoc "job" metric)
  end.

Definition value_of (fields : list (string * json)) : option float :=
  match assoc "value" fields with
  | Some (JArr (_ :: x :: _)) =>
      match py_float float_of_str x with
      | Ok f => Some f
      | Raise _ => None
      end
  | Some (JStr (String _ (String c _))) => float_of_str (String c EmptyString)
  | _ => None
  end.

Definition entry_of (item : json) : option (string * float) :=
  match item with
  | JObj fields =>
      let metric := match assoc "metric" fields with
                    | Some (JObj m) => m
                    | _ => []
                    end in
      match label_of metric, value_of fields with
      | Some l, Some v => Some (l, v)
      | _, _ => None
      end
  | _ => None
  end.

Definition add_entry (out : list (json * float)) (item : json)
  : list (json * float) :=
  match entry_of item with
  | Some (l, v) => dict_store out (JStr l) v
  | None => out
  end.

(** A result of the expected shape: an object whose [metric], when
    present, is an object whose instance and job labels, when present,
    are strings or null. *)
Definition label_shaped (o : option json) : Prop :=
  match o with
  | None | Some JNull | Some (JStr _) => True
  | _ => False
  end.

Definition result_shaped (item : json) : Prop :=
  match item with
  | JObj fields =>
      match assoc "metric" fields with
      | None => True
      | Some (JObj m) =>
          label_shaped (assoc "instance" m) /\ label_shaped (assoc "job" m)
      | _ => False
      end
  | _ => False
  end.

(** Lines 198-199 of [main]. *)
Definition health_query (reply : http_reply)
  : result (list (json * float)) :=
  parse_inventory_states (query_prom reply).
End Parse.

(** A stand-in for [float] on strings, for the examples: it reads the
    texts "0" and "1" and rejects the rest. *)
Definition demo_float (s : string) : option float :=
  if String.eqb s "0" then Some 0%float
  else if String.eqb s "1" then Some 1%float
  else None.

(** An answer with three results: a readable one, one whose value
    cannot be read, and one without a label. *)
Definition demo_results : list json :=
  [JObj [("metric", JObj [("instance", JStr "svc-1:8000")]);
         ("value", JArr [JFloat 0%float; JStr "1"])];
   JObj [("metric", JObj [("instance", JStr "svc-2:8000")]);
         ("value", JArr [JFloat 0%float; JStr "oops"])];
   JObj [("metric", JObj []); ("value", JArr [JFloat 0%float; JStr "0"])]].

Definition demo_envelope : list (string * json) :=
  [("status", JStr "success");
   ("data", JObj [("resultType", JStr "vector");
                  ("result", JArr demo_results)])].

(** An entry of the mapping whose key is a non-empty string. *)
Definition text_key (kv : json * float) : Prop :=
  exists l, kv.1 = JStr l /\ l <> EmptyString.

End Prom.

(** ** monitoring/monitor.py: the control loop *)

Module Monitor.
Import Py Editor.

Inductive event_type : Type :=
| DEGRADATION_CONFIRMED
| REMOVED_FROM_UPSTREAM
| HEALTHY_AGAIN
| RESTORED_TO_UPSTREAM.

(** The [detail] text, kept as the values its f-string prints. *)
Inductive detail : Type :=
| NoDetail
| ValueCount (val : float) (count : Z)
| Value (val : float).

(** An entry of [events_log] without its two clock readings. *)
Record event : Type := Event {
  ev_event : event_type;
  ev_instance : string;
  ev_detail : detail
}.

(** The command-line options the loop reads. *)
Record args : Type := Args {
  consecutive : Z;
  threshold : float;
  dry_run : bool
}.

(** What the loop owns or reaches: the two collections of [main], the
    module's [events_log], the upstream file, and how many times
    [reload_nginx] was called. *)
Record world : Type := World {
  state_counters : gmap string Z;
  removed_instances : gset string;
  events_log : list event;
  upstream : fs;
  reloads : nat
}.

Definition log_event (event_type : event_type) (instance : string)
    (d : detail) (w : world) : world :=
  World (state_counters w) (removed_instances w)
        (events_log w ++ [Event event_type instance d])
        (upstream w) (reloads w).

(** [reload_nginx(dry_run)] given what running the command yields
    ([None]: it could not be launched; otherwise its return code). *)
Definition reload_nginx (dry_run : bool) (run : option Z) : bool :=
  if dry_run then true
  else match run with
       | Some rc => (rc =? 0)%Z
       | None => false
       end.

(** [state_counters.get(inst, 0)] *)
Definition counter_of (w : world) (inst : string) : Z :=
  default 0%Z (state_counters w !! inst).

Definition set_counter (inst : string) (n : Z) (w : world) : world :=
  World (<[inst := n]> (state_counters w)) (removed_instances w)
        (events_log w) (upstream w) (reloads w).

Definition set_upstream (f : fs) (w : world) : world :=
  World (state_counters w) (removed_instances w) (events_log w) f
        (reloads w).

(** A call of [reload_nginx]; [main] drops what it returns. *)
Definition call_reload (w : world) : world :=
  World (state_counters w) (removed_instances w) (events_log w)
        (upstream w) (S (reloads w)).

Definition set_removed (s : gset string) (w : world) : world :=
  World (state_counters w) s (events_log w) (upstream w) (reloads w).

(** The body of [for inst, val in states.items()], lines 203-226. *)
Definition main_body (a : args) (w : world) (item : string * float)
  : world :=
  let '(inst, val) := item in
  if PrimFloat.leb (threshold a) val then
    let w := set_counter inst (counter_of w inst + 1)%Z w in
    if negb (bool_decide (inst ∈ removed_instances w))
       && (consecutive a <=? counter_of w inst)%Z
    then
      let w := log_event DEGRADATION_CONFIRMED inst
                 (ValueCount val (counter_of w inst)) w in
      let '(changed, f) :=
        comment_server_in_upstream inst (dry_run a) (upstream w) in
      let w := set_upstream f w in
      if changed then
        let w := call_reload w in
        let w := set_removed ({[inst]} ∪ removed_instances w) w in
        log_event REMOVED_FROM_UPSTREAM inst NoDetail w
      else w
    else w
  else
    let w := if (0 <? counter_of w inst)%Z then set_counter inst 0%Z w
             else w in
    if bool_decide (inst ∈ removed_instances w) then
      let w := log_event HEALTHY_AGAIN inst (Value val) w in
      let '(restored, f) :=
        restore_server_in_upstream inst (dry_run a) (upstream w) in
      let w := set_upstream f w in
      if restored then
        let w := call_reload w in
        let w := set_removed (removed_instances w ∖ {[inst]}) w in
        log_event RESTORED_TO_UPSTREAM inst NoDetail w
      else w
    else w.

(** One turn of [while True] on the items of [states]. *)
Definition main_cycle (a : args) (w : world)
    (states : list (string * float)) : world :=
  fold_left (main_body a) states w.

(** Successive turns of the loop. *)
Definition main_loop (a : args) (w : world)
    (polls : list (list (string * float))) : world :=
  fold_left (main_cycle a) polls w.

(** The state when the loop is entered, over a given upstream file. *)
Definition start (f : fs) : world := World ∅ ∅ [] f 0.

(** How many entries of a kind the log holds for an instance. *)
Definition event_type_eqb (x y : event_type) : bool :=
  match x, y with
  | DEGRADATION_CONFIRMED, DEGRADATION_CONFIRMED
  | REMOVED_FROM_UPSTREAM, REMOVED_FROM_UPSTREAM
  | HEALTHY_AGAIN, HEALTHY_AGAIN
  | RESTORED_TO_UPSTREAM, RESTORED_TO_UPSTREAM => true
  | _, _ => false
  end.

Definition is_event (k : event_type) (inst : string) (e : event) : bool :=
  event_type_eqb (ev_event e) k && String.eqb (ev_instance e) inst.

Definition count_events (k : event_type) (inst : string)
    (log : list event) : nat :=
  length (List.filter (is_event k inst) log).

(** The tests under which [main_body] calls the editor, on the state
    in which the sample is met (lines 204-207 and 220). *)
Definition attempts_disable (a : args) (w : world)
    (item : string * float) : bool :=
  PrimFloat.leb (threshold a) item.2
  && negb (bool_decide (item.1 ∈ removed_instances w))
  && (consecutive a <=? counter_of w item.1 + 1)%Z.

Definition attempts_restore (a : args) (w : world)
    (item : string * float) : bool :=
  negb (PrimFloat.leb (threshold a) item.2)
  && bool_decide (item.1 ∈ removed_instances w).

(** What the editor would answer in a state. *)
Definition disable_changes (a : args) (w : world) (inst : string) : bool :=
  (comment_server_in_upstream inst (dry_run a) (upstream w)).1.

Definition restore_changes (a : args) (w : world) (inst : string) : bool :=
  (restore_server_in_upstream inst (dry_run a) (upstream w)).1.

(** Along the samples, from state [w]: every disable the loop attempts
    for [inst] reports a change. *)
Fixpoint disable_succeeds (a : args) (inst : string) (w : world)
    (samples : list (string * float)) : bool :=
  match samples with
  | [] => true
  | item :: rest =>
      (if String.eqb item.1 inst && attempts_disable a w item
       then disable_changes a w inst else true)
      && disable_succeeds a inst (main_body a w item) rest
  end.

(** The values polled for [inst] in one turn. *)
Definition samples_of (inst : string) (states : list (string * float))
  : list float :=
  map snd (List.filter (fun kv => String.eqb kv.1 inst) states).

(** Every poll reports [inst] once, with an unhealthy value. *)
Definition unhealthy_run (a : args) (inst : string)
    (polls : list (list (string * float))) : bool :=
  forallb (fun states => match samples_of inst states with
                         | [v] => PrimFloat.leb (threshold a) v
                         | _ => false
                         end) polls.

(** A run to try the loop on: threshold 1.0, two consecutive samples,
    edits committed, one instance with its entry live or disabled. *)
Definition a0 : args := Args 2 1%float false.
Definition svc : string := "svc-1:8000".
Definition conf : string := nl "    server svc-1:8000;".
Definition marked : string :=
  nl "# removed-by-monitor:svc-1:8000 server svc-1:8000;".

(** The entries that record an edit of the upstream file. *)
Definition is_remediation (e : event) : bool :=
  match ev_event e with
  | REMOVED_FROM_UPSTREAM | RESTORED_TO_UPSTREAM => true
  | _ => false
  end.

Definition remediations (log : list event) : nat :=
  length (List.filter is_remediation log).

(** The removed set and the log agree: an instance is marked removed
    exactly when one more REMOVED_FROM_UPSTREAM than RESTORED_TO_UPSTREAM
    was logged for it, and the two counts are equal otherwise. *)
Definition log_matches (w : world) : Prop :=
  forall inst,
    count_events REMOVED_FROM_UPSTREAM inst (events_log w)
    = (count_events RESTORED_TO_UPSTREAM inst (events_log w)
       + if bool_decide (inst ∈ removed_instances w) then 1 else 0)%nat.

(** Saving the log, lines 234-240 (the same code runs in the signal
    handler, lines 183-189). The events file is kept as the list of
    entries [json.dump] wrote to it, [None] when it does not exist;
    [can_write] tells whether [open(.., "w")] succeeds (its exception is
    caught and logged). *)
Definition save_events (log : list event) (can_write : bool)
    (file : option (list event)) : option (list event) :=
  match log with
  | [] => file
  | _ :: _ => if can_write then Some log else file
  end.

(** [main] from its first turn to its return: the loop over the polls
    met before the interrupt, then the save. *)
Definition main (a : args) (f : fs) (polls : list (list (string * float)))
    (can_write : bool) (events_file : option (list event))
  : world * option (list event) :=
  let w := main_loop a (start f) polls in
  (w, save_events (events_log w) can_write events_file).

End Monitor.

(** ** microservicio_inventario/app.py: the admin endpoint *)

Module Inventory.
Import Py.

Definition STATE_VALUES : list (string * Z) :=
  [("healthy", 0%Z); ("degraded", 1%Z); ("down", 2%Z)].

Fixpoint state_value (s : string) (m : list (string * Z)) : option Z :=
  match m with
  | [] => None
  | (k, v) :: m' => if String.eqb s k then Some v else state_value s m'
  end.

(** [service_state["value"]] and the value last given to the
    [SERVICE_STATE] gauge. *)
Record app : Type := App {
  service_state : string;
  SERVICE_STATE : Z
}.

(** The module as loaded. *)
Definition loaded : app := App "healthy" 0.

(** [set_state(new_state)]: the store comes before the lookup in
    [STATE_VALUES], which may raise. *)
Definition set_state (new_state : string) (st : app) : app * result unit :=
  let st := App new_state (SERVICE_STATE st) in
  match state_value new_state STATE_VALUES with
  | Some v => (App (service_state st) v, Ok tt)
  | None => (st, Raise KeyError)
  end.

(** [v in STATE_VALUES]: the key is hashed first. *)
Definition in_STATE_VALUES (v : json) : result bool :=
  match v with
  | JArr _ | JObj _ => Raise TypeError
  | JStr s => Ok (bool_decide (is_Some (state_value s STATE_VALUES)))
  | _ => Ok false
  end.

Definition invalid_state : json :=
  JObj [("error", JStr "invalid state");
        ("allowed", JArr (map (fun kv => JStr (fst kv)) STATE_VALUES))].

(** [update_admin_state()], on what [request.get_json(silent=True)]
    returns ([None]: no JSON body): the state afterwards, and the
    [(body, status)] returned or the exception raised. *)
Definition update_admin_state (body : option json) (st : app)
  : app * result (json * Z) :=
  let content := match body with
                 | Some j => if truthy j then j else JObj []
                 | None => JObj []
                 end in
  match py_get content "state" JNull with
  | Raise e => (st, Raise e)
  | Ok new_state =>
      match in_STATE_VALUES new_state with
      | Raise e => (st, Raise e)
      | Ok false => (st, Ok (invalid_state, 400%Z))
      | Ok true =>
          match new_state with
          | JStr s =>
              let '(st, r) := set_state s st in
              (st, _ ← r; Ok (JObj [("state", new_state)], 200%Z))
          | _ => (st, Raise TypeError)
          end
      end
  end.

(** The status Flask answers with: 500 for an exception the view did
    not handle. *)
Definition status_of (r : result (json * Z)) : Z :=
  match r with
  | Ok (_, code) => code
  | Raise _ => 500%Z
  end.

Definition post_admin_state (body : option json) (st : app) : app * Z :=
  let '(st, r) := update_admin_state body st in (st, status_of r).

(** The gauge holds the encoding of the stored state. *)
Definition consistent (st : app) : Prop :=
  state_value (service_state st) STATE_VALUES = Some (SERVICE_STATE st).

(** Successive requests to [POST /admin/state]. *)
Definition serve (bodies : list (option json)) (st : app) : app :=
  fold_left (fun st body => (post_admin_state body st).1) bodies st.

(** [get_state()] *)
Definition get_state (st : app) : string := service_state st.

(** [GET /admin/state] *)
Definition get_admin_state (st : app) : json * Z :=
  (JObj [("state", JStr (get_state st))], 200%Z).

(** [GET /health] (the three-second sleep of the down state left out) *)
Definition health (st : app) : json * Z :=
  let state := get_state st in
  let payload := JObj [("service", JStr "inventory");
                       ("state", JStr state);
                       ("healthy", JBool (String.eqb state "healthy"))] in
  if String.eqb state "down" then (payload, 500%Z)
  else if String.eqb state "degraded" then (payload, 503%Z)
  else (payload, 200%Z).

Definition INVENTORY_SAMPLE : json :=
  JArr [JObj [("sku", JStr "HTL-001"); ("name", JStr "Hotel Cartagena");
              ("available", JInt 14)];
        JObj [("sku", JStr "FLT-002"); ("name", JStr "Vuelo Bogota-Medellin");
              ("available", JInt 26)];
        JObj [("sku", JStr "CAR-003"); ("name", JStr "Renta auto compacta");
              ("available", JInt 9)]].

(** [GET /inventario], given the number [random.random()] draws (the
    sleeps left out). *)
Definition inventario (draw : float) (st : app) : json * Z :=
  let state := get_state st in
  if String.eqb state "down" then
    (JObj [("error", JStr "service unavailable"); ("state", JStr state)],
     500%Z)
  else if String.eqb state "degraded" && PrimFloat.ltb draw 0.5%float then
    (JObj [("error", JStr "intermittent inventory error");
           ("state", JStr state)], 500%Z)
  else (JObj [("state", JStr state); ("items", INVENTORY_SAMPLE)], 200%Z).

End Inventory.

(** * Properties *)

Import Py Editor.

(** ** Strings *)

Section StringFacts.

Lemma append_nil_l s : String.append EmptyString s = s.
Proof. reflexivity. Qed.

Lemma append_cons c s t :
  String.append (String c s) t = String c (String.append s t).
Proof. reflexivity. Qed.

Lemma append_nil_r s : String.append s EmptyString = s.
Proof. induction s as [|c s IH]; [done|]. by rewrite append_cons, IH. Qed.

Lemma append_assoc s t u :
  String.append (String.append s t) u = String.append s (String.append t u).
Proof.
  induction s as [|c s IH]; [done|]. by rewrite !append_cons, IH.
Qed.

Lemma prefix_nil s : String.prefix EmptyString s = true.
Proof. by destruct s. Qed.

Lemma prefix_cons c p d s :
  String.prefix (String c p) (String d s)
  = Ascii.eqb c d && String.prefix p s.
Proof.
  simpl. destruct (ascii_dec c d) as [->|Hne].
  - by rewrite Ascii.eqb_refl.
  - apply Ascii.eqb_neq in Hne. by rewrite Hne.
Qed.

Lemma prefix_append p s : String.prefix p (String.append p s) = true.
Proof.
  induction p as [|c p IH]; [apply prefix_nil|].
  by rewrite append_cons, prefix_cons, Ascii.eqb_refl, IH.
Qed.

Lemma prefix_inv p s :
  String.prefix p s = true ->
  s = String.append p (slice_from (String.length p) s).
Proof.
  revert s. induction p as [|c p IH]; intros s H; [done|].
  destruct s as [|d s]; [done|].
  rewrite prefix_cons in H. apply andb_prop in H as [Hc Hp].
  apply Ascii.eqb_eq in Hc as ->. simpl String.length. simpl slice_from.
  rewrite append_cons. f_equal. by apply IH.
Qed.

Lemma slice_from_append p s :
  slice_from (String.length p) (String.append p s) = s.
Proof. induction p as [|c p IH]; [done|]. by rewrite append_cons. Qed.

Lemma occurs_append c s t :
  occurs c (String.append s t) = occurs c s || occurs c t.
Proof.
  induction s as [|d s IH]; [done|].
  rewrite append_cons. simpl. by rewrite IH, orb_assoc.
Qed.

Lemma occurs_prefix c p s :
  String.prefix p s = true -> occurs c p = true -> occurs c s = true.
Proof.
  intros H%prefix_inv Hc. rewrite H, occurs_append, Hc. done.
Qed.

(** The characters of a substring are characters of the string. *)
Lemma occurs_contains c k s :
  contains k s = true -> occurs c k = true -> occurs c s = true.
Proof.
  induction s as [|d s IH]; simpl; intros H Hc.
  - rewrite orb_false_r in H. by apply (occurs_prefix c k EmptyString).
  - apply orb_prop in H as [H|H].
    + by apply (occurs_prefix c k (String d s)).
    + rewrite (IH H Hc). by rewrite orb_true_r.
Qed.

Lemma contains_prefix k s : String.prefix k s = true -> contains k s = true.
Proof. intros H. destruct s; cbn [contains]; by rewrite H. Qed.

Lemma contains_append_r k p s :
  contains k s = true -> contains k (String.append p s) = true.
Proof.
  intros H. induction p as [|c p IH]; [done|].
  rewrite append_cons. simpl. by rewrite IH, orb_true_r.
Qed.

Lemma contains_append_mid k p s :
  contains k (String.append p (String.append k s)) = true.
Proof. apply contains_append_r, contains_prefix, prefix_append. Qed.

Lemma is_line_nonempty l : is_line l = true -> l <> EmptyString.
Proof. by destruct l. Qed.

Lemma is_line_cons c l :
  l <> EmptyString ->
  is_line (String c l) = negb (Ascii.eqb c LF) && is_line l.
Proof. by destruct l. Qed.

Lemma ends_lf_cons c l :
  l <> EmptyString -> ends_lf (String c l) = ends_lf l.
Proof. by destruct l. Qed.

Lemma append_nonempty p r :
  r <> EmptyString -> String.append p r <> EmptyString.
Proof. by destruct p. Qed.

Lemma is_line_append p r :
  occurs LF p = false -> is_line r = true ->
  is_line (String.append p r) = true.
Proof.
  intros Hp Hr. induction p as [|c p IH]; [done|].
  simpl in Hp. apply orb_false_elim in Hp as [Hc Hp].
  rewrite append_cons, is_line_cons, Hc, (IH Hp); [done|].
  by apply append_nonempty, is_line_nonempty.
Qed.

Lemma ends_lf_append p r :
  r <> EmptyString -> ends_lf (String.append p r) = ends_lf r.
Proof.
  intros Hr. induction p as [|c p IH]; [done|].
  rewrite append_cons, ends_lf_cons; [done|]. by apply append_nonempty.
Qed.

Lemma lstrip_nonempty l : lstrip l <> EmptyString -> l <> EmptyString.
Proof. by destruct l. Qed.

Lemma is_line_lstrip l :
  is_line l = true -> lstrip l <> EmptyString -> is_line (lstrip l) = true.
Proof.
  induction l as [|c l IH]; [done|]. intros Hl Hs.
  cbn [lstrip] in *. destruct (isspace c); [|done].
  rewrite is_line_cons in Hl by by apply lstrip_nonempty.
  apply andb_prop in Hl as [_ Hl]. by apply IH.
Qed.

Lemma ends_lf_lstrip l :
  lstrip l <> EmptyString -> ends_lf (lstrip l) = ends_lf l.
Proof.
  induction l as [|c l IH]; [done|]. intros Hs.
  cbn [lstrip] in *. destruct (isspace c); [|done].
  rewrite ends_lf_cons by by apply lstrip_nonempty. by apply IH.
Qed.

Lemma occurs_lstrip c l : occurs c l = false -> occurs c (lstrip l) = false.
Proof.
  induction l as [|d l IH]; [done|]. intros H. cbn [lstrip].
  destruct (isspace d); [|done].
  simpl in H. apply orb_false_elim in H as [_ H]. by apply IH.
Qed.

Lemma rstrip_nil_inv s : rstrip s <> EmptyString -> s <> EmptyString.
Proof. by destruct s. Qed.

(** A text that starts with a character that is not white space keeps
    it when stripped. *)
Lemma strip_head c s :
  isspace c = false -> exists r, strip (String c s) = String c r.
Proof.
  intros Hc. unfold strip. cbn [lstrip]. rewrite Hc. cbn [rstrip].
  destruct (rstrip s); rewrite ?Hc; eauto.
Qed.

Lemma universal_newlines_no_cr s : occurs CR (universal_newlines s) = false.
Proof.
  induction s as [|c s IH]; [done|]. cbn [universal_newlines].
  destruct (Ascii.eqb c CR) eqn:Hc.
  - destruct s as [|d s]; [done|].
    destruct (Ascii.eqb d LF) eqn:Hd.
    + apply Ascii.eqb_eq in Hd as ->. exact IH.
    + cbn [occurs]. by rewrite IH.
  - cbn [occurs]. by rewrite Hc, IH.
Qed.

Lemma universal_newlines_id s :
  occurs CR s = false -> universal_newlines s = s.
Proof.
  induction s as [|c s IH]; [done|]. cbn [occurs universal_newlines].
  intros [Hc Hs]%orb_false_elim. by rewrite Hc, (IH Hs).
Qed.

Lemma writelines_cons l ls :
  writelines (l :: ls) = String.append l (writelines ls).
Proof. reflexivity. Qed.

Lemma writelines_splitlines s : writelines (splitlines s) = s.
Proof.
  induction s as [|c s IH]; [done|]. cbn [splitlines].
  destruct (Ascii.eqb c LF).
  - by rewrite writelines_cons, IH.
  - destruct (splitlines s) as [|l ls].
    + by rewrite <- IH.
    + rewrite <- IH, !writelines_cons. by rewrite append_cons.
Qed.

Lemma occurs_writelines c ls :
  occurs c (writelines ls) = existsb (occurs c) ls.
Proof.
  induction ls as [|l ls IH]; [done|].
  by rewrite writelines_cons, occurs_append, IH.
Qed.

Lemma chained_splitlines s : chained (splitlines s) = true.
Proof.
  induction s as [|c s IH]; [done|]. cbn [splitlines].
  destruct (Ascii.eqb c LF) eqn:Hc.
  - cbn [chained is_line ends_lf]. by rewrite Hc, IH; destruct (splitlines s).
  - destruct (splitlines s) as [|l ls]; [done|].
    cbn [chained] in IH |- *.
    apply andb_prop in IH as [[Hl He]%andb_prop Hls].
    pose proof (is_line_nonempty _ Hl) as Hne.
    by rewrite is_line_cons, ends_lf_cons, Hc, Hl, He, Hls.
Qed.

Lemma splitlines_line l : is_line l = true -> splitlines l = [l].
Proof.
  induction l as [|c l IH]; [done|]. intros Hl.
  destruct l as [|d l].
  - cbn. by destruct (Ascii.eqb c LF).
  - rewrite is_line_cons in Hl by done.
    apply andb_prop in Hl as [Hc Hl]. apply negb_true_iff in Hc.
    cbn [splitlines] in *. by rewrite Hc, (IH Hl).
Qed.

Lemma splitlines_append l t :
  is_line l = true -> ends_lf l = true ->
  splitlines (String.append l t) = l :: splitlines t.
Proof.
  induction l as [|c l IH]; [done|]. intros Hl He.
  destruct l as [|d l].
  - cbn in He. rewrite append_cons, append_nil_l. cbn [splitlines].
    by rewrite He.
  - rewrite is_line_cons in Hl by done. rewrite ends_lf_cons in He by done.
    apply andb_prop in Hl as [Hc Hl]. apply negb_true_iff in Hc.
    rewrite append_cons. cbn [splitlines]. by rewrite Hc, (IH Hl He).
Qed.

Lemma splitlines_writelines ls :
  chained ls = true -> splitlines (writelines ls) = ls.
Proof.
  induction ls as [|l ls IH]; [done|]. cbn [chained].
  intros [[Hl He]%andb_prop Hls]%andb_prop. rewrite writelines_cons.
  destruct ls as [|l' ls].
  - cbn [writelines fold_right]. rewrite append_nil_r.
    by apply splitlines_line.
  - by rewrite splitlines_append, (IH Hls).
Qed.

(** What was written is read back line for line, when the lines follow
    one another and hold no CR. *)
Lemma readlines_writelines ls :
  chained ls = true -> existsb (occurs CR) ls = false ->
  readlines (writelines ls) = ls.
Proof.
  intros Hch Hcr. unfold readlines.
  rewrite universal_newlines_id by by rewrite occurs_writelines.
  by apply splitlines_writelines.
Qed.

Lemma chained_readlines content : chained (readlines content) = true.
Proof. apply chained_splitlines. Qed.

Lemma readlines_no_cr content :
  existsb (occurs CR) (readlines content) = false.
Proof.
  unfold readlines. rewrite <- occurs_writelines, writelines_splitlines.
  apply universal_newlines_no_cr.
Qed.

Lemma chained_map (f : string -> string) ls :
  (forall l, is_line l = true ->
             is_line (f l) = true /\ (ends_lf l = true -> ends_lf (f l) = true)) ->
  chained ls = true -> chained (map f ls) = true.
Proof.
  intros Hf. induction ls as [|l ls IH]; [done|]. cbn [chained map].
  intros [[Hl He]%andb_prop Hls]%andb_prop.
  destruct (Hf l Hl) as [Hfl Hfe]. rewrite Hfl, (IH Hls).
  destruct ls as [|l' ls]; [done|]. cbn [map]. by rewrite (Hfe He).
Qed.

End StringFacts.

(** ** The upstream editor *)

Section EditorFacts.

Lemma comment_loop_from k ls b acc :
  fold_left (comment_step k) ls (b, acc)
  = (b || existsb (is_live_entry_of k) ls, acc ++ map (disabled_form k) ls).
Proof.
  revert b acc. induction ls as [|l ls IH]; intros b acc.
  - cbn. by rewrite orb_false_r, app_nil_r.
  - cbn [fold_left existsb map]. rewrite orb_assoc, cons_middle, app_assoc.
    rewrite <- IH. f_equal. unfold comment_step, disabled_form.
    destruct (is_live_entry_of k l); by rewrite ?orb_true_r, ?orb_false_r.
Qed.

(** The loop of [comment_server_in_upstream]: [changed] tells whether
    some line is a live entry that mentions the instance, and every
    line is rewritten on its own. *)
Lemma comment_loop_spec k ls :
  comment_loop k ls
  = (existsb (is_live_entry_of k) ls, map (disabled_form k) ls).
Proof. unfold comment_loop. by rewrite comment_loop_from. Qed.

Lemma restore_loop_from k ls b acc :
  fold_left (restore_step k) ls (b, acc)
  = (b || existsb (fun l => startswith l (marker k)) ls,
     acc ++ map (enabled_form k) ls).
Proof.
  revert b acc. induction ls as [|l ls IH]; intros b acc.
  - cbn. by rewrite orb_false_r, app_nil_r.
  - cbn [fold_left existsb map]. rewrite orb_assoc, cons_middle, app_assoc.
    rewrite <- IH. f_equal. unfold restore_step, enabled_form.
    destruct (startswith l (marker k)); by rewrite ?orb_true_r, ?orb_false_r.
Qed.

Lemma restore_loop_spec k ls :
  restore_loop k ls
  = (existsb (fun l => startswith l (marker k)) ls, map (enabled_form k) ls).
Proof. unfold restore_loop. by rewrite restore_loop_from. Qed.

Lemma comment_server_spec k dry content :
  comment_server_in_upstream k dry (Some content)
  = let lines := readlines content in
    let changed := existsb (is_live_entry_of k) lines in
    (changed,
     if changed && negb dry
     then Some (writelines (map (disabled_form k) lines))
     else Some content).
Proof.
  unfold comment_server_in_upstream. rewrite comment_loop_spec. cbn zeta.
  destruct (existsb _ _); [|done]. by destruct dry.
Qed.

Lemma restore_server_spec k dry content :
  restore_server_in_upstream k dry (Some content)
  = let lines := readlines content in
    let changed := existsb (fun l => startswith l (marker k)) lines in
    (changed,
     if changed && negb dry
     then Some (writelines (map (enabled_form k) lines))
     else Some content).
Proof.
  unfold restore_server_in_upstream. rewrite restore_loop_spec. cbn zeta.
  destruct (existsb _ _); [|done]. by destruct dry.
Qed.

Lemma marker_head k :
  exists r, marker k = String "#" r.
Proof. unfold marker. eexists. reflexivity. Qed.

(** A line that carries a marker is not a live entry of any instance. *)
Lemma marked_not_live k' k r :
  is_live_entry_of k' (String.append (marker k) r) = false.
Proof.
  destruct (marker_head k) as [m ->]. rewrite append_cons.
  unfold is_live_entry_of.
  destruct (strip_head "#" (String.append m r) eq_refl) as [y ->].
  unfold startswith. rewrite prefix_cons. cbn. by rewrite andb_false_r.
Qed.

Lemma live_lstrip_nonempty k ln :
  is_live_entry_of k ln = true -> lstrip ln <> EmptyString.
Proof.
  unfold is_live_entry_of, strip, startswith.
  intros [[_ H]%andb_prop _]%andb_prop Hs. by rewrite Hs in H.
Qed.

Lemma live_contains k ln :
  is_live_entry_of k ln = true -> contains k ln = true.
Proof.
  unfold is_live_entry_of. by intros [[H _]%andb_prop _]%andb_prop.
Qed.

Lemma occurs_marker c k :
  occurs c (marker k)
  = occurs c "# removed-by-monitor:" || occurs c k || occurs c " ".
Proof. unfold marker. by rewrite !occurs_append, orb_assoc. Qed.

(** The disabled form of a line is a line again, provided the key
    holds no LF. *)
Lemma disabled_form_line k l :
  occurs LF k = false -> is_line l = true ->
  is_line (disabled_form k l) = true
  /\ (ends_lf l = true -> ends_lf (disabled_form k l) = true).
Proof.
  intros Hk Hl. unfold disabled_form.
  destruct (is_live_entry_of k l) eqn:Hlive; [|done].
  pose proof (live_lstrip_nonempty _ _ Hlive) as Hne. split.
  - apply is_line_append; [|by apply is_line_lstrip].
    by rewrite occurs_marker, Hk.
  - by rewrite ends_lf_append, ends_lf_lstrip.
Qed.

Lemma restored_form_line k l :
  is_line l = true ->
  is_line (restored_form k l) = true
  /\ (ends_lf l = true -> ends_lf (restored_form k l) = true).
Proof.
  intros Hl. unfold restored_form.
  destruct (is_live_entry_of k l) eqn:Hlive; [|done].
  pose proof (live_lstrip_nonempty _ _ Hlive) as Hne. split.
  - apply is_line_append; [done|by apply is_line_lstrip].
  - by rewrite ends_lf_append, ends_lf_lstrip.
Qed.

Lemma disabled_form_no_cr k l :
  occurs CR l = false -> occurs CR (disabled_form k l) = false.
Proof.
  intros Hl. unfold disabled_form.
  destruct (is_live_entry_of k l) eqn:Hlive; [|done].
  rewrite occurs_append, occurs_marker, (occurs_lstrip _ _ Hl).
  destruct (occurs CR k) eqn:Hk; [|done].
  by rewrite (occurs_contains CR k l (live_contains _ _ Hlive) Hk) in Hl.
Qed.

Lemma restored_form_no_cr k l :
  occurs CR l = false -> occurs CR (restored_form k l) = false.
Proof.
  intros Hl. unfold restored_form.
  destruct (is_live_entry_of k l); [|done].
  by rewrite occurs_append, (occurs_lstrip _ _ Hl).
Qed.

Lemma existsb_map_false {A} (p : A -> bool) (f : A -> A) ls :
  existsb p ls = false ->
  (forall l, p l = false -> p (f l) = false) ->
  existsb p (map f ls) = false.
Proof.
  intros H Hf. induction ls as [|l ls IH]; [done|].
  cbn [existsb map] in *. apply orb_false_elim in H as [Hl Hls].
  by rewrite (Hf l Hl), (IH Hls).
Qed.

(** A committed disable with a key free of LF leaves a file whose
    lines are the disabled forms of the lines it found. *)
Lemma readlines_disabled k content :
  occurs LF k = false ->
  readlines (writelines (map (disabled_form k) (readlines content)))
  = map (disabled_form k) (readlines content).
Proof.
  intros Hk. apply readlines_writelines.
  - apply chained_map; [|apply chained_readlines].
    intros l Hl. by apply disabled_form_line.
  - apply existsb_map_false; [apply readlines_no_cr|].
    apply disabled_form_no_cr.
Qed.

Lemma readlines_restored k content :
  readlines (writelines (map (restored_form k) (readlines content)))
  = map (restored_form k) (readlines content).
Proof.
  apply readlines_writelines.
  - apply chained_map; [|apply chained_readlines].
    intros l Hl. by apply restored_form_line.
  - apply existsb_map_false; [apply readlines_no_cr|].
    apply restored_form_no_cr.
Qed.

End EditorFacts.

Section EditorClaims.

Lemma enabled_disabled k l :
  contains (marker k) l = false ->
  enabled_form k (disabled_form k l) = restored_form k l.
Proof.
  intros Hfree. unfold disabled_form, restored_form.
  destruct (is_live_entry_of k l).
  - unfold enabled_form, startswith.
    by rewrite prefix_append, slice_from_append.
  - unfold enabled_form, startswith.
    destruct (String.prefix (marker k) l) eqn:Hp; [|done].
    by rewrite (contains_prefix _ _ Hp) in Hfree.
Qed.

Lemma marker_free_In k content l :
  marker_free k content = true -> In l (readlines content) ->
  contains (marker k) l = false.
Proof.
  unfold marker_free. rewrite forallb_forall. intros H Hl.
  by apply negb_true_iff, H.
Qed.

(** C3 (as amended). For a key that holds no line feed and a file none
    of whose lines holds the key's marker, a committed disable followed
    by a committed enable leaves, for every live entry of the key, its
    original text without the leading white space behind four spaces,
    and the other lines as they were; in between, the entry reads as the
    marker followed by that same text, and the enable reports a change
    exactly when the disable did. *)
Theorem disable_enable_round_trip (k content : string) :
  occurs LF k = false ->
  marker_free k content = true ->
  round_trip k content
  /\ file_lines (after_disable k content)
     = map (disabled_form k) (readlines content)
  /\ (restore_server_in_upstream k false (after_disable k content)).1
     = (comment_server_in_upstream k false (Some content)).1.
Proof.
  intros Hk Hfree. unfold round_trip, after_disable_enable, after_disable.
  rewrite comment_server_spec. cbn zeta. cbn [fst snd].
  destruct (existsb (is_live_entry_of k) (readlines content)) eqn:Hch;
    cbn [andb negb].
  - rewrite restore_server_spec. cbn zeta. cbn [fst snd file_lines].
    rewrite !readlines_disabled by done.
    assert (existsb (fun l => startswith l (marker k))
              (map (disabled_form k) (readlines content)) = true) as ->.
    { apply existsb_exists in Hch as (l & Hl & Hlive).
      apply existsb_exists. exists (disabled_form k l). split.
      - by apply in_map.
      - unfold disabled_form, startswith. rewrite Hlive.
        apply prefix_append. }
    cbn [andb negb file_lines]. split; [|done].
    rewrite map_map.
    rewrite (map_ext_in _ (restored_form k)); [apply readlines_restored|].
    intros l Hl. apply enabled_disabled. by eapply marker_free_In.
  - assert (forall f : string -> string,
              (forall l, is_live_entry_of k l = false -> f l = l) ->
              map f (readlines content) = readlines content) as Hid.
    { intros f Hf. rewrite <- (map_id (readlines content)) at 2.
      apply map_ext_in. intros l Hl. apply Hf. apply not_true_is_false.
      intros Hlive.
      assert (existsb (is_live_entry_of k) (readlines content) = true) as Hex
        by (apply existsb_exists; eauto).
      by rewrite Hch in Hex. }
    rewrite restore_server_spec. cbn zeta. cbn [fst snd file_lines].
    assert (existsb (fun l => startswith l (marker k)) (readlines content)
            = false) as ->.
    { apply not_true_is_false. intros (l & Hl & Hp)%existsb_exists.
      apply contains_prefix in Hp.
      by rewrite (marker_free_In k content l Hfree Hl) in Hp. }
    cbn [andb file_lines]. split; [|split; [|done]]; symmetry; apply Hid.
    + intros l Hl. unfold restored_form. by rewrite Hl.
    + intros l Hl. unfold disabled_form. by rewrite Hl.
Qed.

Lemma disable_enable_round_trip_witness :
  let content :=
    String.append (nl "upstream inventory {")
      (String.append (nl "    server svc-1:8000;")
         (String.append (nl "    server svc-10:8000;") (nl "}"))) in
  round_trip "svc-1:8000" content.
Proof.
  intros content.
  apply (disable_enable_round_trip "svc-1:8000" content); reflexivity.
Defined.

(** C3 as stated fails for a key that ends with a line feed: the marker
    written by the disable is cut in two lines when the file is read
    again, so the enable finds nothing to restore and the file keeps the
    two lines the disable left. *)
Lemma round_trip_key_with_line_feed :
  marker_free (nl "a") (nl "server a") = true
  /\ ~ round_trip (nl "a") (nl "server a").
Proof.
  split; [reflexivity|]. unfold round_trip. vm_compute. discriminate.
Qed.

(** C4 (as amended). For a key that holds no line feed: when a
    committed disable reports a change, a second disable on the file it
    left reports no change and leaves that file as it is. *)
Theorem disable_idempotent (k : string) (f f1 : fs) :
  occurs LF k = false ->
  comment_server_in_upstream k false f = (true, f1) ->
  comment_server_in_upstream k false f1 = (false, f1).
Proof.
  intros Hk H. destruct f as [content|]; [|done].
  rewrite comment_server_spec in H. cbn zeta in H.
  injection H as Hch <-. rewrite Hch. cbn [andb negb].
  rewrite comment_server_spec, readlines_disabled by done. cbn zeta.
  assert (existsb (is_live_entry_of k)
            (map (disabled_form k) (readlines content)) = false) as ->;
    [|done].
  apply not_true_is_false.
  intros (l' & (l & <- & Hl)%in_map_iff & Hlive)%existsb_exists.
  unfold disabled_form in Hlive.
  destruct (is_live_entry_of k l) eqn:Hl0.
  - by rewrite marked_not_live in Hlive.
  - by rewrite Hl0 in Hlive.
Qed.

Lemma disable_idempotent_witness :
  comment_server_in_upstream "svc-1:8000" false
    (Some (nl "# removed-by-monitor:svc-1:8000 server svc-1:8000;"))
  = (false, Some (nl "# removed-by-monitor:svc-1:8000 server svc-1:8000;")).
Proof.
  apply (disable_idempotent "svc-1:8000"
           (Some (nl "    server svc-1:8000;"))); reflexivity.
Defined.

(** C4 as stated fails for a key that ends with a line feed: the text
    of the entry lands on a line of its own, which the second disable
    takes for a live entry and rewrites again. *)
Lemma disable_twice_key_with_line_feed :
  ~ (forall (k : string) (f f1 : fs),
       comment_server_in_upstream k false f = (true, f1) ->
       comment_server_in_upstream k false f1 = (false, f1)).
Proof.
  intros H.
  specialize (H (nl "a") (Some (nl "server a")) _ eq_refl).
  vm_compute in H. discriminate H.
Qed.

Lemma lookup_map_fixed (f : string -> string) (lines : list string) i ln :
  lines !! i = Some ln -> f ln = ln -> map f lines !! i = Some ln.
Proof.
  intros Hi Hf. change (map f lines) with (f <$> lines).
  by rewrite list_lookup_fmap, Hi; cbn; rewrite Hf.
Qed.

Lemma marker_prefix_contains k ln :
  startswith ln (marker k) = true -> contains k ln = true.
Proof.
  unfold startswith. intros H%prefix_inv. rewrite H. unfold marker.
  rewrite !append_assoc. apply contains_append_mid.
Qed.

(** C5 (as amended). Disable and enable of [k1] keep the number of
    lines and leave in its place, byte for byte, every line in which
    [k1] does not occur as a substring; more precisely, disable rewrites
    only live entries in which [k1] occurs, and enable only lines that
    begin with the marker of [k1]. *)
Theorem editor_frame (k1 : string) (lines : list string) (i : nat)
    (ln : string) :
  lines !! i = Some ln ->
  (is_live_entry_of k1 ln = false ->
     (comment_loop k1 lines).2 !! i = Some ln)
  /\ (startswith ln (marker k1) = false ->
        (restore_loop k1 lines).2 !! i = Some ln)
  /\ (contains k1 ln = false ->
        (comment_loop k1 lines).2 !! i = Some ln
        /\ (restore_loop k1 lines).2 !! i = Some ln)
  /\ length (comment_loop k1 lines).2 = length lines
  /\ length (restore_loop k1 lines).2 = length lines.
Proof.
  intros Hi. rewrite comment_loop_spec, restore_loop_spec. cbn [snd].
  assert (is_live_entry_of k1 ln = false ->
          map (disabled_form k1) lines !! i = Some ln) as Hd.
  { intros H. apply lookup_map_fixed; [done|].
    unfold disabled_form. by rewrite H. }
  assert (startswith ln (marker k1) = false ->
          map (enabled_form k1) lines !! i = Some ln) as He.
  { intros H. apply lookup_map_fixed; [done|].
    unfold enabled_form. by rewrite H. }
  split; [done|]. split; [done|]. split; [|by rewrite !length_map].
  intros Hk. split.
  - apply Hd. unfold is_live_entry_of. by rewrite Hk.
  - apply He. apply not_true_is_false. intros H%marker_prefix_contains.
    by rewrite Hk in H.
Qed.

Lemma editor_frame_witness :
  let lines := [nl "    server svc-1:8000;"; nl "    server svc-2:8000;"] in
  (comment_loop "svc-1:8000" lines).2 !! 1%nat
  = Some (nl "    server svc-2:8000;")
  /\ (restore_loop "svc-1:8000" lines).2 !! 1%nat
     = Some (nl "    server svc-2:8000;").
Proof.
  intros lines.
  apply (editor_frame "svc-1:8000" lines 1 (nl "    server svc-2:8000;"));
    reflexivity.
Defined.

(** C5 as stated fails when one key occurs in the entry of another:
    disabling svc-1 rewrites the entry of svc-10. *)
Lemma disable_rewrites_entry_of_other_key :
  ~ (forall (k1 k2 : string) (lines : list string) (i : nat) (ln : string),
       k1 <> k2 -> lines !! i = Some ln -> belongs_to k2 ln = true ->
       (comment_loop k1 lines).2 !! i = Some ln
       /\ (restore_loop k1 lines).2 !! i = Some ln).
Proof.
  intros H.
  destruct (H "svc-1" "svc-10" [nl "    server svc-10:8000;"] 0%nat
              (nl "    server svc-10:8000;")) as [Hd _];
    [done|reflexivity|reflexivity|].
  vm_compute in Hd. discriminate Hd.
Qed.

Lemma dry_run_comment k f :
  comment_server_in_upstream k true f
  = ((comment_server_in_upstream k false f).1, f).
Proof.
  destruct f as [content|]; [|done]. rewrite !comment_server_spec.
  cbn zeta. cbn [fst negb]. by rewrite andb_false_r.
Qed.

Lemma dry_run_restore k f :
  restore_server_in_upstream k true f
  = ((restore_server_in_upstream k false f).1, f).
Proof.
  destruct f as [content|]; [|done]. rewrite !restore_server_spec.
  cbn zeta. cbn [fst negb]. by rewrite andb_false_r.
Qed.

(** C8. In dry-run, any sequence of disable and enable calls leaves the
    file as it is, and each call returns the boolean the committing
    call returns on that file. *)
Theorem dry_run_isolation (es : list edit) (f : fs) :
  run_edits true es f = (map (fun e => (apply_edit false e f).1) es, f).
Proof.
  induction es as [|e es IH]; [done|]. cbn [run_edits map].
  assert (apply_edit true e f = ((apply_edit false e f).1, f)) as ->.
  { destruct e; [apply dry_run_comment|apply dry_run_restore]. }
  by rewrite IH.
Qed.

End EditorClaims.

(** ** The control loop *)

Import Monitor.

Section LoopFacts.

Variable a : args.

Lemma counter_of_set_eq inst n w : counter_of (set_counter inst n w) inst = n.
Proof. unfold counter_of, set_counter. cbn. by rewrite lookup_insert_eq. Qed.

Lemma counter_of_insert_ne inst inst' n m s l f r :
  inst' <> inst ->
  counter_of (World (<[inst' := n]> m) s l f r) inst
  = counter_of (World m s l f r) inst.
Proof. intros. unfold counter_of. cbn. by rewrite lookup_insert_ne. Qed.

(** [main_body] on an unhealthy sample. *)
Lemma main_body_unhealthy w inst val :
  PrimFloat.leb (threshold a) val = true ->
  main_body a w (inst, val)
  = let n := (counter_of w inst + 1)%Z in
    let counters := <[inst := n]> (state_counters w) in
    if attempts_disable a w (inst, val) then
      let e := Event DEGRADATION_CONFIRMED inst (ValueCount val n) in
      let '(changed, f) :=
        comment_server_in_upstream inst (dry_run a) (upstream w) in
      if changed then
        World counters ({[inst]} ∪ removed_instances w)
              (events_log w ++ [e; Event REMOVED_FROM_UPSTREAM inst NoDetail])
              f (S (reloads w))
      else World counters (removed_instances w) (events_log w ++ [e]) f
                 (reloads w)
    else World counters (removed_instances w) (events_log w) (upstream w)
               (reloads w).
Proof.
  intros Hv. unfold main_body, attempts_disable. cbn [fst snd].
  rewrite Hv, counter_of_set_eq. cbn [andb]. cbn zeta.
  cbn [removed_instances set_counter].
  destruct (negb (bool_decide (inst ∈ removed_instances w))
            && (consecutive a <=? counter_of w inst + 1)%Z); [|done].
  unfold log_event, set_removed, call_reload, set_upstream, set_counter.
  cbn [state_counters removed_instances events_log upstream reloads].
  destruct (comment_server_in_upstream inst (dry_run a) (upstream w))
    as [[] f]; [|done].
  by rewrite <- app_assoc.
Qed.

(** [main_body] on a healthy sample. *)
Lemma main_body_healthy w inst val :
  PrimFloat.leb (threshold a) val = false ->
  main_body a w (inst, val)
  = let counters := if (0 <? counter_of w inst)%Z
                    then <[inst := 0%Z]> (state_counters w)
                    else state_counters w in
    if attempts_restore a w (inst, val) then
      let e := Event HEALTHY_AGAIN inst (Value val) in
      let '(restored, f) :=
        restore_server_in_upstream inst (dry_run a) (upstream w) in
      if restored then
        World counters (removed_instances w ∖ {[inst]})
              (events_log w ++ [e; Event RESTORED_TO_UPSTREAM inst NoDetail])
              f (S (reloads w))
      else World counters (removed_instances w) (events_log w ++ [e]) f
                 (reloads w)
    else World counters (removed_instances w) (events_log w) (upstream w)
               (reloads w).
Proof.
  intros Hv. unfold main_body, attempts_restore. cbn [fst snd].
  rewrite Hv. cbn [andb negb]. cbn zeta.
  assert (forall w0 : world,
            World (state_counters w0) (removed_instances w0) (events_log w0)
                  (upstream w0) (reloads w0) = w0) as Heta by by intros [].
  destruct (0 <? counter_of w inst)%Z; cbn [removed_instances set_counter];
    (destruct (bool_decide (inst ∈ removed_instances w)); [|by rewrite ?Heta]);
    unfold log_event, set_removed, call_reload, set_upstream, set_counter;
    cbn [state_counters removed_instances events_log upstream reloads];
    (destruct (restore_server_in_upstream inst (dry_run a) (upstream w))
       as [[] f]; [|done]);
    by rewrite <- app_assoc.
Qed.

Lemma comment_unchanged k dry f :
  (comment_server_in_upstream k dry f).1 = false ->
  (comment_server_in_upstream k dry f).2 = f.
Proof.
  destruct f as [content|]; [|done]. rewrite comment_server_spec. cbn.
  by intros ->.
Qed.

Lemma restore_unchanged k dry f :
  (restore_server_in_upstream k dry f).1 = false ->
  (restore_server_in_upstream k dry f).2 = f.
Proof.
  destruct f as [content|]; [|done]. rewrite restore_server_spec. cbn.
  by intros ->.
Qed.

Lemma count_events_app k inst l l' :
  count_events k inst (l ++ l')
  = (count_events k inst l + count_events k inst l')%nat.
Proof. unfold count_events. by rewrite List.filter_app, length_app. Qed.

Lemma count_events_other k inst inst' d k' :
  inst' <> inst -> count_events k inst [Event k' inst' d] = 0%nat.
Proof.
  intros Hne%String.eqb_neq. unfold count_events, is_event. cbn.
  by rewrite Hne, andb_false_r.
Qed.

(** A sample of another instance leaves the counter, the removed flag
    and the events of [inst] as they were. *)
Lemma main_body_frame w inst inst' val :
  inst' <> inst ->
  let w' := main_body a w (inst', val) in
  counter_of w' inst = counter_of w inst
  /\ (inst ∈ removed_instances w' <-> inst ∈ removed_instances w)
  /\ forall k, count_events k inst (events_log w')
               = count_events k inst (events_log w).
Proof.
  intros Hne. cbn zeta.
  assert (forall k k' d,
            count_events k inst (events_log w ++ [Event k' inst' d])
            = count_events k inst (events_log w)) as H1.
  { intros. rewrite count_events_app, count_events_other by done. lia. }
  assert (forall k k' d k'' d',
            count_events k inst
              (events_log w ++ [Event k' inst' d; Event k'' inst' d'])
            = count_events k inst (events_log w)) as H2.
  { intros. change [Event k' inst' d; Event k'' inst' d']
      with ([Event k' inst' d] ++ [Event k'' inst' d']).
    rewrite !count_events_app, !count_events_other by done. lia. }
  destruct (PrimFloat.leb (threshold a) val) eqn:Hv.
  - rewrite main_body_unhealthy by done. cbn zeta.
    destruct (attempts_disable a w (inst', val));
      [destruct (comment_server_in_upstream _ _ _) as [[] f]|];
      rewrite counter_of_insert_ne by done; cbn [removed_instances events_log];
      (split; [by destruct w|]); (split; [|done]);
      rewrite ?elem_of_union, ?elem_of_difference, ?elem_of_singleton;
      intuition congruence.
  - rewrite main_body_healthy by done. cbn zeta.
    destruct (0 <? counter_of w inst')%Z;
      (destruct (attempts_restore a w (inst', val));
       [destruct (restore_server_in_upstream _ _ _) as [[] f]|]);
      rewrite ?counter_of_insert_ne by done;
      cbn [removed_instances events_log];
      (split; [by destruct w|]); (split; [|done]);
      rewrite ?elem_of_union, ?elem_of_difference, ?elem_of_singleton;
      intuition congruence.
Qed.

Lemma samples_of_cons inst i v rest :
  samples_of inst ((i, v) :: rest)
  = if String.eqb i inst then v :: samples_of inst rest
    else samples_of inst rest.
Proof. unfold samples_of. cbn. by destruct (String.eqb i inst). Qed.

Lemma samples_of_app inst l l' :
  samples_of inst (l ++ l') = samples_of inst l ++ samples_of inst l'.
Proof. unfold samples_of. by rewrite List.filter_app, map_app. Qed.

Lemma main_loop_concat w polls :
  main_loop a w polls = fold_left (main_body a) (concat polls) w.
Proof.
  revert w. induction polls as [|states polls IH]; intros w; [done|].
  cbn [concat]. rewrite fold_left_app. apply IH.
Qed.

Lemma unhealthy_run_concat inst polls :
  unhealthy_run a inst polls = true ->
  forallb (PrimFloat.leb (threshold a)) (samples_of inst (concat polls)) = true
  /\ length (samples_of inst (concat polls)) = length polls.
Proof.
  induction polls as [|states polls IH]; [done|].
  cbn [unhealthy_run forallb concat]. intros [Hs Hp]%andb_prop.
  destruct (IH Hp) as [IH1 IH2].
  rewrite samples_of_app, forallb_app, length_app, IH1, IH2.
  destruct (samples_of inst states) as [|v [|]]; [done| |done].
  cbn. by rewrite Hs.
Qed.

(** An unhealthy sample for which no disable is attempted only moves
    the counter. *)
Lemma body_unhealthy_idle w inst v :
  PrimFloat.leb (threshold a) v = true ->
  attempts_disable a w (inst, v) = false ->
  let w' := main_body a w (inst, v) in
  counter_of w' inst = (counter_of w inst + 1)%Z
  /\ removed_instances w' = removed_instances w
  /\ events_log w' = events_log w
  /\ upstream w' = upstream w.
Proof.
  intros Hv Hatt. cbn zeta. rewrite main_body_unhealthy, Hatt by done.
  cbn zeta. unfold counter_of at 1. cbn. by rewrite lookup_insert_eq.
Qed.

(** An unhealthy sample for which the disable is attempted and reports
    a change marks the instance removed and logs one removal. *)
Lemma body_unhealthy_removes w inst v :
  PrimFloat.leb (threshold a) v = true ->
  attempts_disable a w (inst, v) = true ->
  disable_changes a w inst = true ->
  let w' := main_body a w (inst, v) in
  counter_of w' inst = (counter_of w inst + 1)%Z
  /\ inst ∈ removed_instances w'
  /\ count_events REMOVED_FROM_UPSTREAM inst (events_log w')
     = S (count_events REMOVED_FROM_UPSTREAM inst (events_log w)).
Proof.
  intros Hv Hatt Hd. cbn zeta. rewrite main_body_unhealthy, Hatt by done.
  cbn zeta. unfold disable_changes in Hd.
  destruct (comment_server_in_upstream _ _ _) as [ch f]. cbn in Hd. subst.
  unfold counter_of at 1. cbn [state_counters removed_instances events_log].
  rewrite lookup_insert_eq. split; [done|].
  split; [rewrite elem_of_union, elem_of_singleton; by left|].
  rewrite count_events_app. unfold count_events at 2. cbn.
  rewrite String.eqb_refl. cbn. lia.
Qed.

(** Once marked removed, an instance that stays unhealthy is not
    removed again. *)
Lemma run_removed inst samples :
  forall w,
    inst ∈ removed_instances w ->
    forallb (PrimFloat.leb (threshold a)) (samples_of inst samples) = true ->
    let w' := fold_left (main_body a) samples w in
    inst ∈ removed_instances w'
    /\ count_events REMOVED_FROM_UPSTREAM inst (events_log w')
       = count_events REMOVED_FROM_UPSTREAM inst (events_log w)
    /\ counter_of w' inst
       = (counter_of w inst + Z.of_nat (length (samples_of inst samples)))%Z.
Proof.
  induction samples as [|[i v] rest IH]; intros w Hin Hall; cbn zeta.
  - cbn. split; [done|]. split; [done|]. lia.
  - cbn [fold_left]. rewrite samples_of_cons in Hall |- *.
    destruct (String.eqb i inst) eqn:Hi.
    + apply String.eqb_eq in Hi as ->. cbn [forallb] in Hall.
      apply andb_prop in Hall as [Hv Hall].
      assert (attempts_disable a w (inst, v) = false) as Hatt.
      { unfold attempts_disable. cbn [fst snd].
        by rewrite bool_decide_eq_true_2, andb_false_r by done. }
      destruct (body_unhealthy_idle w inst v Hv Hatt) as (B1 & B2 & B3 & _).
      destruct (IH (main_body a w (inst, v))) as (H1 & H2 & H3);
        [by rewrite B2|done|].
      rewrite B1 in H3. rewrite B3 in H2. cbn [length].
      split; [done|]. split; [done|]. lia.
    + apply String.eqb_neq in Hi.
      destruct (main_body_frame w inst i v Hi) as (F1 & F2 & F3).
      destruct (IH (main_body a w (i, v)) (proj2 F2 Hin) Hall)
        as (H1 & H2 & H3).
      by rewrite <- F1, <- F3.
Qed.

(** From a state in which the instance is not marked removed and its
    counter is below the threshold. *)
Lemma run_pending inst samples :
  forall w,
    inst ∉ removed_instances w ->
    (counter_of w inst < consecutive a)%Z ->
    forallb (PrimFloat.leb (threshold a)) (samples_of inst samples) = true ->
    disable_succeeds a inst w samples = true ->
    let w' := fold_left (main_body a) samples w in
    let n := (counter_of w inst
              + Z.of_nat (length (samples_of inst samples)))%Z in
    counter_of w' inst = n
    /\ ((n < consecutive a)%Z ->
        (inst ∉ removed_instances w')
        /\ count_events REMOVED_FROM_UPSTREAM inst (events_log w')
           = count_events REMOVED_FROM_UPSTREAM inst (events_log w))
    /\ ((consecutive a <= n)%Z ->
        inst ∈ removed_instances w'
        /\ count_events REMOVED_FROM_UPSTREAM inst (events_log w')
           = S (count_events REMOVED_FROM_UPSTREAM inst (events_log w))).
Proof.
  induction samples as [|[i v] rest IH]; intros w Hnin Hlt Hall Hok;
    cbn zeta.
  - cbn. split; [lia|]. split; [done|]. lia.
  - cbn [fold_left]. cbn [disable_succeeds fst] in Hok.
    rewrite samples_of_cons in Hall |- *.
    apply andb_prop in Hok as [Hd Hok].
    destruct (String.eqb i inst) eqn:Hi.
    + apply String.eqb_eq in Hi as ->. cbn [forallb] in Hall.
      apply andb_prop in Hall as [Hv Hall]. cbn [andb] in Hd.
      cbn [length]. rewrite Nat2Z.inj_succ.
      destruct (attempts_disable a w (inst, v)) eqn:Hatt.
      * (* the counter reaches the threshold: the disable is attempted *)
        destruct (body_unhealthy_removes w inst v Hv Hatt Hd)
          as (B1 & B2 & B3).
        unfold attempts_disable in Hatt. cbn [fst snd] in Hatt.
        apply andb_prop in Hatt as [_ Hge%Z.leb_le].
        destruct (run_removed inst rest (main_body a w (inst, v)) B2 Hall)
          as (H1 & H2 & H3).
        rewrite B1 in H3. rewrite B3 in H2.
        split; [lia|]. split; [lia|]. by intros _.
      * (* below the threshold: nothing is attempted *)
        destruct (body_unhealthy_idle w inst v Hv Hatt)
          as (B1 & B2 & B3 & _).
        unfold attempts_disable in Hatt. cbn [fst snd] in Hatt.
        rewrite Hv, bool_decide_eq_false_2 in Hatt by done.
        cbn [negb andb] in Hatt. apply Z.leb_gt in Hatt.
        destruct (IH (main_body a w (inst, v))) as (H1 & H2 & H3);
          [by rewrite B2|by rewrite B1|done|done|].
        rewrite B1 in H1, H2, H3. rewrite B3 in H2, H3.
        split; [lia|]. split; intros Hn; [apply H2|apply H3]; lia.
    + apply String.eqb_neq in Hi.
      destruct (main_body_frame w inst i v Hi) as (F1 & F2 & F3).
      destruct (IH (main_body a w (i, v))) as (H1 & H2 & H3);
        [by rewrite F2|by rewrite F1|done|done|].
      rewrite F1 in H1, H2, H3. rewrite F3 in H2, H3. done.
Qed.

(** An unhealthy sample for which the disable is attempted and reports
    no change logs the detection and leaves flag and file alone. *)
Lemma body_unhealthy_failed w inst v :
  PrimFloat.leb (threshold a) v = true ->
  attempts_disable a w (inst, v) = true ->
  disable_changes a w inst = false ->
  let w' := main_body a w (inst, v) in
  counter_of w' inst = (counter_of w inst + 1)%Z
  /\ removed_instances w' = removed_instances w
  /\ events_log w'
     = events_log w ++ [Event DEGRADATION_CONFIRMED inst
                          (ValueCount v (counter_of w inst + 1))]
  /\ upstream w' = upstream w.
Proof.
  intros Hv Hatt Hd. cbn zeta. rewrite main_body_unhealthy, Hatt by done.
  cbn zeta. unfold disable_changes in Hd.
  pose proof (comment_unchanged _ _ _ Hd) as Hf.
  destruct (comment_server_in_upstream _ _ _) as [ch f]. cbn in Hd, Hf. subst.
  unfold counter_of at 1. cbn. by rewrite lookup_insert_eq.
Qed.

(** Without the upstream file no edit reports a change: the file stays
    absent and the removed set as it was. *)
Lemma upstream_missing_stays w item :
  upstream w = None ->
  upstream (main_body a w item) = None
  /\ removed_instances (main_body a w item) = removed_instances w.
Proof.
  intros Hf. destruct item as [i v].
  destruct (PrimFloat.leb (threshold a) v) eqn:Hv.
  - rewrite main_body_unhealthy by done. cbn zeta. rewrite Hf.
    by destruct (attempts_disable a w (i, v)).
  - rewrite main_body_healthy by done. cbn zeta. rewrite Hf.
    by destruct (attempts_restore a w (i, v)).
Qed.

Lemma run_failing inst samples :
  forall w,
    upstream w = None ->
    inst ∉ removed_instances w ->
    (consecutive a <= counter_of w inst + 1)%Z ->
    forallb (PrimFloat.leb (threshold a)) (samples_of inst samples) = true ->
    let w' := fold_left (main_body a) samples w in
    count_events DEGRADATION_CONFIRMED inst (events_log w')
    = (count_events DEGRADATION_CONFIRMED inst (events_log w)
       + length (samples_of inst samples))%nat.
Proof.
  induction samples as [|[i v] rest IH]; intros w Hf Hnin Hc Hall; cbn zeta.
  - cbn. lia.
  - cbn [fold_left]. rewrite samples_of_cons in Hall |- *.
    destruct (upstream_missing_stays w (i, v) Hf) as [U1 U2].
    destruct (String.eqb i inst) eqn:Hi.
    + apply String.eqb_eq in Hi as ->. cbn [forallb] in Hall.
      apply andb_prop in Hall as [Hv Hall].
      assert (attempts_disable a w (inst, v) = true) as Hatt.
      { unfold attempts_disable. cbn [fst snd].
        rewrite Hv, bool_decide_eq_false_2 by done.
        by apply Z.leb_le in Hc as ->. }
      assert (disable_changes a w inst = false) as Hd
        by (unfold disable_changes; by rewrite Hf).
      destruct (body_unhealthy_failed w inst v Hv Hatt Hd)
        as (B1 & B2 & B3 & B4).
      rewrite IH; [|done|by rewrite B2|rewrite B1; lia|done].
      rewrite B3, count_events_app. unfold count_events at 2. cbn.
      rewrite String.eqb_refl. cbn. lia.
    + apply String.eqb_neq in Hi.
      destruct (main_body_frame w inst i v Hi) as (F1 & F2 & F3).
      rewrite IH; [|done|by rewrite F2|by rewrite F1|done].
      by rewrite F3.
Qed.

(** X25. While the upstream file is missing, an instance that stays
    unhealthy past the threshold gets one more DEGRADATION_CONFIRMED on
    every poll. *)
Lemma detection_logged_on_every_poll inst w polls :
  upstream w = None ->
  inst ∉ removed_instances w ->
  (consecutive a <= counter_of w inst + 1)%Z ->
  unhealthy_run a inst polls = true ->
  count_events DEGRADATION_CONFIRMED inst (events_log (main_loop a w polls))
  = (count_events DEGRADATION_CONFIRMED inst (events_log w)
     + length polls)%nat.
Proof.
  intros Hf Hnin Hc Hrun. rewrite main_loop_concat.
  destruct (unhealthy_run_concat inst polls Hrun) as [Hall Hlen].
  by rewrite run_failing, Hlen.
Qed.

(** A value strictly below the threshold fails the test
    [val >= threshold] (as does a NaN on either side). *)
Lemma below_threshold_healthy (t v : float) :
  PrimFloat.ltb v t = true -> PrimFloat.leb t v = false.
Proof.
  rewrite ltb_spec, leb_spec. unfold SFltb, SFleb, SFcompare.
  destruct (Prim2SF v) as [s1|s1| |s1 m1 e1],
           (Prim2SF t) as [s2|s2| |s2 m2 e2];
    try done; try (by destruct s1); try (by destruct s2);
    try (by destruct s1, s2).
  pose proof (Pos.compare_cont_antisym m1 m2 Eq) as Hm. cbn [CompOpp] in Hm.
  destruct s1, s2; try done; rewrite (Z.compare_antisym e1 e2);
    destruct (e1 ?= e2)%Z; cbn [CompOpp]; try done;
    rewrite <- Hm; by destruct (Pos.compare_cont Eq m1 m2).
Qed.

(** Counters never go below zero. *)
Lemma main_body_nonneg w item :
  (forall inst, 0 <= counter_of w inst)%Z ->
  forall inst, (0 <= counter_of (main_body a w item) inst)%Z.
Proof.
  intros Hw inst. destruct item as [i v].
  destruct (decide (i = inst)) as [->|Hne].
  - destruct (PrimFloat.leb (threshold a) v) eqn:Hv.
    + rewrite main_body_unhealthy by done. cbn zeta.
      assert (forall s l f r,
                counter_of (World (<[inst := (counter_of w inst + 1)%Z]>
                                     (state_counters w)) s l f r) inst
                = (counter_of w inst + 1)%Z) as H1.
      { intros. unfold counter_of at 1. cbn. by rewrite lookup_insert_eq. }
      specialize (Hw inst).
      destruct (attempts_disable a w (inst, v));
        [destruct (comment_server_in_upstream _ _ _) as [[] f]|];
        rewrite H1; lia.
    + rewrite main_body_healthy by done. cbn zeta.
      assert (forall s l f r,
                (0 <= counter_of (World (if (0 <? counter_of w inst)%Z
                                         then <[inst := 0%Z]> (state_counters w)
                                         else state_counters w) s l f r) inst)%Z)
        as H0.
      { intros. destruct (0 <? counter_of w inst)%Z.
        - unfold counter_of. cbn. by rewrite lookup_insert_eq.
        - apply (Hw inst). }
      destruct (attempts_restore a w (inst, v));
        [destruct (restore_server_in_upstream _ _ _) as [[] f]|]; apply H0.
  - destruct (main_body_frame w inst i v Hne) as (F1 & _). rewrite F1.
    apply Hw.
Qed.

(** X24. From the start of a run no counter ever goes below zero. *)
Lemma counters_nonneg f polls inst :
  (0 <= counter_of (main_loop a (start f) polls) inst)%Z.
Proof.
  rewrite main_loop_concat.
  assert (forall i, (0 <= counter_of (start f) i)%Z) as H by done.
  revert inst. revert H. generalize (start f).
  induction (concat polls) as [|item rest IH]; intros w Hw inst; [apply Hw|].
  cbn [fold_left]. apply IH. by apply main_body_nonneg.
Qed.

End LoopFacts.

Section LoopClaims.

Variable a : args.

(** C7. When [main_body] decides to remove (to restore) an instance it
    logs DEGRADATION_CONFIRMED (HEALTHY_AGAIN) whatever the editor
    answers; REMOVED_FROM_UPSTREAM (RESTORED_TO_UPSTREAM) is logged and
    the removed flag set (cleared) exactly when the editor reports a
    change, and after an edit that reports none the removed set is the
    one before; without a decision, log, removed set and file stay. *)
Theorem remediation_recorded_only_on_change (w : world) (inst : string)
    (val : float) :
  let w' := main_body a w (inst, val) in
  if attempts_disable a w (inst, val) then
    events_log w'
    = events_log w
      ++ Event DEGRADATION_CONFIRMED inst
           (ValueCount val (counter_of w inst + 1))
         :: (if disable_changes a w inst
             then [Event REMOVED_FROM_UPSTREAM inst NoDetail] else [])
    /\ removed_instances w'
       = (if disable_changes a w inst
          then {[inst]} ∪ removed_instances w else removed_instances w)
    /\ upstream w'
       = (comment_server_in_upstream inst (dry_run a) (upstream w)).2
  else if attempts_restore a w (inst, val) then
    events_log w'
    = events_log w
      ++ Event HEALTHY_AGAIN inst (Value val)
         :: (if restore_changes a w inst
             then [Event RESTORED_TO_UPSTREAM inst NoDetail] else [])
    /\ removed_instances w'
       = (if restore_changes a w inst
          then removed_instances w ∖ {[inst]} else removed_instances w)
    /\ upstream w'
       = (restore_server_in_upstream inst (dry_run a) (upstream w)).2
  else
    events_log w' = events_log w
    /\ removed_instances w' = removed_instances w
    /\ upstream w' = upstream w.
Proof.
  cbn zeta. unfold disable_changes, restore_changes.
  destruct (PrimFloat.leb (threshold a) val) eqn:Hv.
  - rewrite main_body_unhealthy by done. cbn zeta.
    assert (attempts_restore a w (inst, val) = false) as ->
      by (unfold attempts_restore; cbn; by rewrite Hv).
    destruct (attempts_disable a w (inst, val)); [|done].
    by destruct (comment_server_in_upstream _ _ _) as [[] f].
  - rewrite main_body_healthy by done. cbn zeta.
    assert (attempts_disable a w (inst, val) = false) as ->
      by (unfold attempts_disable; cbn; by rewrite Hv).
    destruct (attempts_restore a w (inst, val)); [|done].
    by destruct (restore_server_in_upstream _ _ _) as [[] f].
Qed.

(** C2. A sample below the threshold (the test [val >= threshold]
    fails) leaves the counter of the instance at 0 whatever it was;
    when the instance is marked removed and the restore reports a
    change, one HEALTHY_AGAIN and one RESTORED_TO_UPSTREAM are logged,
    [reload_nginx] is called once, the file is the one the restore left
    and the flag is cleared; when it is not marked removed nothing is
    restored. *)
Theorem healthy_sample_recovers (w : world) (inst : string) (val : float) :
  PrimFloat.leb (threshold a) val = false ->
  (0 <= counter_of w inst)%Z ->
  let w' := main_body a w (inst, val) in
  counter_of w' inst = 0%Z
  /\ (inst ∈ removed_instances w -> restore_changes a w inst = true ->
      (inst ∉ removed_instances w')
      /\ events_log w'
         = events_log w ++ [Event HEALTHY_AGAIN inst (Value val);
                            Event RESTORED_TO_UPSTREAM inst NoDetail]
      /\ count_events RESTORED_TO_UPSTREAM inst (events_log w')
         = S (count_events RESTORED_TO_UPSTREAM inst (events_log w))
      /\ upstream w'
         = (restore_server_in_upstream inst (dry_run a) (upstream w)).2
      /\ reloads w' = S (reloads w))
  /\ (inst ∉ removed_instances w ->
      removed_instances w' = removed_instances w
      /\ events_log w' = events_log w
      /\ upstream w' = upstream w
      /\ reloads w' = reloads w).
Proof.
  intros Hv Hc. cbn zeta. rewrite main_body_healthy by done. cbn zeta.
  unfold restore_changes, attempts_restore. cbn [fst snd]. rewrite Hv.
  cbn [negb andb]. split; [|split].
  - assert (forall s l f r,
              counter_of (World (if (0 <? counter_of w inst)%Z
                                 then <[inst := 0%Z]> (state_counters w)
                                 else state_counters w) s l f r) inst = 0%Z)
      as H0.
    { intros. destruct (0 <? counter_of w inst)%Z eqn:Hlt.
      - unfold counter_of. cbn. by rewrite lookup_insert_eq.
      - apply Z.ltb_ge in Hlt. unfold counter_of in *. cbn. lia. }
    destruct (bool_decide _); [|apply H0].
    destruct (restore_server_in_upstream _ _ _) as [[] f]; apply H0.
  - intros Hin Hr. rewrite bool_decide_eq_true_2 by done.
    destruct (restore_server_in_upstream _ _ _) as [[] f]; [|done].
    cbn [removed_instances events_log upstream reloads snd].
    split; [rewrite elem_of_difference, elem_of_singleton; tauto|].
    split; [done|]. split; [|done].
    rewrite count_events_app. unfold count_events at 2. cbn.
    rewrite String.eqb_refl. cbn. lia.
  - intros Hnin. by rewrite bool_decide_eq_false_2 by done.
Qed.

(** C9. While the remediation keeps failing the detection is logged
    again on every sample: an unhealthy sample of an instance that is
    not marked removed, whose counter reaches or exceeds the
    consecutive threshold, appends a DEGRADATION_CONFIRMED when the
    disable reports no change, and a healthy sample of an instance
    marked removed appends a HEALTHY_AGAIN when the restore reports no
    change; flag and file stay as they were, so the next sample meets
    the same conditions. *)
Theorem detection_logged_again_on_failed_edit (w : world) (inst : string)
    (val : float) :
  let w' := main_body a w (inst, val) in
  (inst ∉ removed_instances w ->
   PrimFloat.leb (threshold a) val = true ->
   (consecutive a <= counter_of w inst + 1)%Z ->
   disable_changes a w inst = false ->
   events_log w'
   = events_log w ++ [Event DEGRADATION_CONFIRMED inst
                        (ValueCount val (counter_of w inst + 1))]
   /\ (inst ∉ removed_instances w')
   /\ counter_of w' inst = (counter_of w inst + 1)%Z
   /\ upstream w' = upstream w)
  /\ (inst ∈ removed_instances w ->
      PrimFloat.leb (threshold a) val = false ->
      restore_changes a w inst = false ->
      events_log w'
      = events_log w ++ [Event HEALTHY_AGAIN inst (Value val)]
      /\ inst ∈ removed_instances w'
      /\ upstream w' = upstream w).
Proof.
  cbn zeta. unfold disable_changes, restore_changes. split.
  - intros Hnin Hv Hc Hd. rewrite main_body_unhealthy by done. cbn zeta.
    unfold attempts_disable. cbn [fst snd].
    rewrite Hv, bool_decide_eq_false_2 by done.
    apply Z.leb_le in Hc. rewrite Hc. cbn [andb negb].
    pose proof (comment_unchanged _ _ _ Hd) as Hf.
    destruct (comment_server_in_upstream _ _ _) as [ch f].
    cbn in Hd, Hf. subst. cbn. split; [done|]. split; [done|].
    split; [|done]. unfold counter_of. cbn. by rewrite lookup_insert_eq.
  - intros Hin Hv Hr. rewrite main_body_healthy by done. cbn zeta.
    unfold attempts_restore. cbn [fst snd].
    rewrite Hv, bool_decide_eq_true_2 by done. cbn [andb negb].
    pose proof (restore_unchanged _ _ _ Hr) as Hf.
    destruct (restore_server_in_upstream _ _ _) as [ch f].
    cbn in Hr, Hf. by subst.
Qed.

(** C1. Hysteresis. Let the consecutive threshold be at least 1, the
    instance start with counter 0 and not marked removed, every poll of
    the run report it once with a value at or above the threshold, and
    every disable attempted for it report a change. Then after [n]
    polls its counter is [n]; while [n] is below the threshold (so
    after [c-1] polls) it is not marked removed and no
    REMOVED_FROM_UPSTREAM was logged for it; from the [c]-th poll on it
    is marked removed and exactly one was logged, however long the run
    goes on. *)
Theorem hysteresis (inst : string) (w : world)
    (polls : list (list (string * float))) :
  (1 <= consecutive a)%Z ->
  counter_of w inst = 0%Z ->
  inst ∉ removed_instances w ->
  unhealthy_run a inst polls = true ->
  disable_succeeds a inst w (concat polls) = true ->
  let w' := main_loop a w polls in
  let n := Z.of_nat (length polls) in
  counter_of w' inst = n
  /\ ((n < consecutive a)%Z ->
      (inst ∉ removed_instances w')
      /\ count_events REMOVED_FROM_UPSTREAM inst (events_log w')
         = count_events REMOVED_FROM_UPSTREAM inst (events_log w))
  /\ ((consecutive a <= n)%Z ->
      inst ∈ removed_instances w'
      /\ count_events REMOVED_FROM_UPSTREAM inst (events_log w')
         = S (count_events REMOVED_FROM_UPSTREAM inst (events_log w))).
Proof.
  intros Hc H0 Hnin Hrun Hok. cbn zeta. rewrite main_loop_concat.
  destruct (unhealthy_run_concat a inst polls Hrun) as [Hall Hlen].
  destruct (run_pending a inst (concat polls) w) as (H1 & H2 & H3);
    [done|lia|done|done|].
  rewrite H0, Hlen in H1, H2, H3. by rewrite Z.add_0_l in H1, H2, H3.
Qed.

End LoopClaims.

Section LoopWitnesses.

(** The scenario of the design document: three unhealthy polls with
    threshold 1.0 and two consecutive samples. *)
Lemma hysteresis_witness :
  let w' := main_loop a0 (start (Some conf))
              [[(svc, 1%float)]; [(svc, 1%float)]; [(svc, 1%float)]] in
  svc ∈ removed_instances w'
  /\ count_events REMOVED_FROM_UPSTREAM svc (events_log w') = 1%nat.
Proof.
  intros w'.
  apply (hysteresis a0 svc (start (Some conf))
           [[(svc, 1%float)]; [(svc, 1%float)]; [(svc, 1%float)]]).
  - vm_compute. discriminate.
  - reflexivity.
  - apply not_elem_of_empty.
  - reflexivity.
  - vm_compute. reflexivity.
  - vm_compute. discriminate.
Defined.

Lemma healthy_sample_recovers_witness :
  let w := World {[svc := 3%Z]} {[svc]} [] (Some marked) 0 in
  counter_of (main_body a0 w (svc, 0%float)) svc = 0%Z.
Proof.
  intros w.
  apply (healthy_sample_recovers a0 w svc 0%float).
  - reflexivity.
  - vm_compute. discriminate.
Defined.

Lemma detection_logged_again_witness :
  let w := World {[svc := 1%Z]} ∅ [] None 0 in
  events_log (main_body a0 w (svc, 1%float))
  = events_log w ++ [Event DEGRADATION_CONFIRMED svc
                       (ValueCount 1%float (counter_of w svc + 1))].
Proof.
  intros w.
  apply (detection_logged_again_on_failed_edit a0 w svc 1%float).
  - apply not_elem_of_empty.
  - reflexivity.
  - vm_compute. discriminate.
  - reflexivity.
Defined.

(** The scenarios of the design document, threshold 1.0 and two
    consecutive samples: after 0.0, 1.0 nothing is decided; the second
    1.0 removes the instance; a third changes nothing more; a 0.0 then
    restores it and the file reads as at the start. *)
Example scenario_remove :
  let w2 := main_loop a0 (start (Some conf))
              [[(svc, 0%float)]; [(svc, 1%float)]] in
  let w3 := main_cycle a0 w2 [(svc, 1%float)] in
  let w4 := main_cycle a0 w3 [(svc, 1%float)] in
  (events_log w2 = [] /\ counter_of w2 svc = 1%Z)
  /\ (events_log w3
      = [Event DEGRADATION_CONFIRMED svc (ValueCount 1%float 2);
         Event REMOVED_FROM_UPSTREAM svc NoDetail]
      /\ upstream w3 = Some marked)
  /\ (events_log w4 = events_log w3 /\ upstream w4 = upstream w3
      /\ counter_of w4 svc = 3%Z).
Proof. vm_compute. repeat split. Qed.

Example scenario_restore :
  let w := World {[svc := 3%Z]} {[svc]} [] (Some marked) 0 in
  let w' := main_cycle a0 w [(svc, 0%float)] in
  events_log w'
  = [Event HEALTHY_AGAIN svc (Value 0%float);
     Event RESTORED_TO_UPSTREAM svc NoDetail]
  /\ counter_of w' svc = 0%Z
  /\ upstream w' = Some conf
  /\ removed_instances w' = ∅.
Proof. vm_compute. repeat split. Qed.

End LoopWitnesses.

(** ** The health feed *)

Import Prom.

Section FeedClaims.

Variable float_of_str : string -> option float.

(** X15. A failed request, a 4xx or 5xx answer and a body that is not
    JSON give no data and raise nothing. *)
Lemma health_query_unavailable reply :
  reply = TransportError
  \/ (exists code body,
        reply = Response code body
        /\ (raise_for_status code = true \/ body = None)) ->
  health_query float_of_str reply = Ok [].
Proof.
  intros [->|(code & body & -> & [H| ->])]; unfold health_query; cbn.
  - done.
  - by rewrite H.
  - by destruct (raise_for_status code).
Qed.

(** An envelope whose status is not "success" gives no data. *)
Lemma parse_not_success m :
  (forall s, assoc "status" m = Some (JStr s) -> s <> "success") ->
  parse_inventory_states float_of_str (JObj m) = Ok [].
Proof.
  intros H. unfold parse_inventory_states. destruct m as [|kv m]; [done|].
  cbn [truthy negb py_get mbind result_bind].
  destruct (assoc "status" (kv :: m)) as [[| | | |s| |]|] eqn:Hs; try done.
  cbn. destruct (String.eqb s "success") eqn:Heq; [|done].
  apply String.eqb_eq in Heq. by destruct (H s eq_refl).
Qed.

(** What the [try] block of the loop reads. *)
Lemma value_chain fields :
  match (v ← py_get (JObj fields) "value" (JArr []);
         x ← py_index1 v; py_float float_of_str x) with
  | Ok f => Some f
  | Raise _ => None
  end = value_of float_of_str fields.
Proof.
  unfold value_of. cbn [py_get mbind result_bind]. unfold default.
  destruct (assoc "value" fields) as [[| | | |[|c1 [|c2 t]]|[|x [|y t]]|]|];
    cbn [from_option id py_index1 py_float mbind result_bind]; try done.
  by destruct (float_of_str _).
Qed.

(** The label line 55 picks. *)
Lemma label_chain m :
  label_shaped (assoc "instance" m) -> label_shaped (assoc "job" m) ->
  exists lab,
    (forall B (k : json -> result B),
       (i ← py_get (JObj m) "instance" JNull;
        instance ← py_or i (py_get (JObj m) "job" JNull);
        k instance) = k lab)
    /\ match label_of m with
       | Some l => lab = JStr l /\ truthy lab = true
       | None => truthy lab = false
       end.
Proof.
  unfold label_of, py_or. cbn [py_get mbind result_bind]. unfold default.
  destruct (assoc "instance" m) as [[| | | |i| |]|]; try done;
    destruct (assoc "job" m) as [[| | | |j| |]|]; try done; intros _ _;
    cbn [from_option id truthy text_label];
    repeat match goal with
           | |- context [String.eqb ?x EmptyString] =>
               destruct (String.eqb x EmptyString) eqn:?
           end;
    cbn [negb mbind result_bind truthy];
    eexists; (split; [intros B k; reflexivity|]);
    cbn [truthy];
    repeat match goal with
           | E : String.eqb _ _ = _ |- _ => rewrite E; clear E
           end;
    done.
Qed.

(** On a result of the expected shape the loop body raises nothing: it
    stores the entry, or skips the result when the label is missing or
    the value cannot be read. *)
Lemma parse_item_shaped out item :
  result_shaped item ->
  parse_item float_of_str out item = Ok (add_entry float_of_str out item).
Proof.
  destruct item as [| | | | | |fields]; try done. intros Hitem.
  assert (exists m,
            py_get (JObj fields) "metric" (JObj []) = Ok (JObj m)
            /\ match assoc "metric" fields with
               | Some (JObj m') => m'
               | _ => []
               end = m
            /\ label_shaped (assoc "instance" m)
            /\ label_shaped (assoc "job" m)) as (m & Hm & Hm' & Hi & Hj).
  { cbn [py_get result_shaped] in *. unfold default.
    destruct (assoc "metric" fields) as [[| | | | | |m]|]; try done.
    - exists m. by destruct Hitem.
    - by exists []. }
  unfold parse_item, add_entry, entry_of. rewrite Hm, Hm'.
  cbn [mbind result_bind].
  destruct (label_chain m Hi Hj) as (lab & -> & Hlab).
  rewrite <- value_chain.
  destruct (v ← py_get (JObj fields) "value" (JArr []);
            x ← py_index1 v; py_float float_of_str x) as [value|e].
  - destruct (label_of m) as [l|].
    + destruct Hlab as [-> Ht]. by rewrite Ht.
    + by rewrite Hlab.
  - by destruct (label_of m).
Qed.

Lemma for_each_shaped items :
  Forall result_shaped items ->
  forall out,
    for_each (parse_item float_of_str) items out
    = Ok (fold_left (add_entry float_of_str) items out).
Proof.
  induction 1 as [|item items Hitem _ IH]; intros out; [done|].
  cbn [for_each fold_left]. rewrite parse_item_shaped by done. apply IH.
Qed.

(** The second half of C6 holds: on a success envelope whose results
    have the expected shape, the results with a label and a readable
    value are returned (a later one replacing an earlier one of the same
    label) and the others are skipped, without an exception. *)
Lemma parse_success_envelope m d items :
  assoc "status" m = Some (JStr "success") ->
  assoc "data" m = Some (JObj d) ->
  assoc "result" d = Some (JArr items) ->
  Forall result_shaped items ->
  parse_inventory_states float_of_str (JObj m)
  = Ok (fold_left (add_entry float_of_str) items []).
Proof.
  intros Hs Hd Hr Hitems. unfold parse_inventory_states.
  destruct m as [|kv m]; [done|]. cbn [truthy negb py_get].
  rewrite Hs, Hd. unfold default. cbn [from_option id mbind result_bind].
  cbn [is_success]. rewrite String.eqb_refl. cbn [negb py_get].
  rewrite Hr. cbn [from_option id mbind result_bind py_iter].
  by apply for_each_shaped.
Qed.

(** C6 fails on the code. A 200 answer whose body is the JSON array
    [[1]] passes [query_prom] and makes [parse_inventory_states] raise
    [AttributeError] (a list has no [get]); [main] does not catch it.
    The claim asks for an empty mapping and no exception. *)
Theorem health_query_raises_on_json_array :
  health_query float_of_str (Response 200 (Some (JArr [JInt 1])))
  = Raise AttributeError.
Proof. reflexivity. Qed.

(** The same with an envelope whose [data] is not an object, and with a
    result whose instance label is a list. *)
Lemma health_query_raises_on_odd_envelope :
  health_query float_of_str
    (Response 200 (Some (JObj [("status", JStr "success");
                               ("data", JArr [])])))
  = Raise AttributeError
  /\ health_query float_of_str
       (Response 200
          (Some (JObj [("status", JStr "success");
                       ("data",
                        JObj [("result",
                               JArr [JObj [("metric",
                                            JObj [("instance",
                                                   JArr [JInt 1])]);
                                           ("value",
                                            JArr [JInt 0; JInt 1])]])])])))
     = Raise TypeError.
Proof. split; reflexivity. Qed.

End FeedClaims.

(** ** The inventory service *)

Import Inventory.

Section InventoryClaims.

Lemma state_value_cases s v :
  state_value s STATE_VALUES = Some v ->
  (s = "healthy" /\ v = 0%Z) \/ (s = "degraded" /\ v = 1%Z)
  \/ (s = "down" /\ v = 2%Z).
Proof.
  unfold STATE_VALUES. cbn [state_value].
  destruct (String.eqb s "healthy") eqn:H1;
    [apply String.eqb_eq in H1; intros [= <-]; auto|].
  destruct (String.eqb s "degraded") eqn:H2;
    [apply String.eqb_eq in H2; intros [= <-]; auto|].
  destruct (String.eqb s "down") eqn:H3;
    [apply String.eqb_eq in H3; intros [= <-]; auto|].
  done.
Qed.

(** A valid state is stored and the gauge set to its encoding. *)
Lemma post_valid_state m s v st :
  assoc "state" m = Some (JStr s) ->
  state_value s STATE_VALUES = Some v ->
  post_admin_state (Some (JObj m)) st = (App s v, 200%Z).
Proof.
  intros Hm Hs. unfold post_admin_state, update_admin_state.
  destruct m as [|kv m]; [done|]. cbn [truthy py_get].
  rewrite Hm. unfold default. cbn [from_option id in_STATE_VALUES].
  rewrite bool_decide_eq_true_2 by (rewrite Hs; eauto).
  unfold set_state. by rewrite Hs.
Qed.

(** Whatever the request, the stored state and the gauge change
    together or not at all. *)
Lemma post_changes_both body st :
  let st' := (post_admin_state body st).1 in
  st' = st
  \/ exists s v, state_value s STATE_VALUES = Some v /\ st' = App s v.
Proof.
  cbn zeta. unfold post_admin_state, update_admin_state.
  destruct (py_get _ "state" JNull) as [new_state|e]; [|by left].
  destruct (in_STATE_VALUES new_state) as [[]|e] eqn:Hin; [|by left..].
  destruct new_state as [| | | |s| |]; try discriminate Hin.
  cbn [in_STATE_VALUES] in Hin. injection Hin as Hin.
  apply bool_decide_eq_true_1 in Hin.
  destruct Hin as [v Hv]. change (state_value s STATE_VALUES = Some v) in Hv.
  unfold set_state. rewrite Hv. cbn [fst service_state]. right. by exists s, v.
Qed.

Lemma post_consistent body st :
  consistent st -> consistent (post_admin_state body st).1.
Proof.
  intros Hst. destruct (post_changes_both body st) as [->|(s & v & Hv & ->)];
    [done|exact Hv].
Qed.

(** Served one request after another, the service keeps the gauge equal
    to the encoding of the stored state, which is one of the three. *)
Lemma serve_consistent bodies :
  consistent (serve bodies loaded).
Proof.
  unfold serve. assert (consistent loaded) as H by reflexivity.
  revert H. generalize loaded. induction bodies as [|b bodies IH];
    intros st Hst; [done|].
  cbn [fold_left]. by apply IH, post_consistent.
Qed.

(** X26. A request without a JSON body, with a falsy one, or with an
    object whose [state] is missing or is not one of the three names, is
    answered with 400 and changes nothing. *)
Lemma post_invalid_object body st :
  match body with
  | None => True
  | Some (JObj m) =>
      match assoc "state" m with
      | Some (JStr s) => state_value s STATE_VALUES = None
      | Some (JArr _) | Some (JObj _) => False
      | _ => True
      end
  | Some j => truthy j = false
  end ->
  post_admin_state body st = (st, 400%Z).
Proof.
  unfold post_admin_state, update_admin_state.
  destruct body as [[|b|z|f|s|l|m]|]; cbn [truthy]; try done.
  - by intros ->.
  - by intros ->.
  - by intros ->.
  - by intros ->.
  - by intros ->.
  - destruct m as [|kv m]; [done|]. cbn [py_get].
    destruct (assoc "state" (kv :: m)) as [[| | | |s| |]|]; cbn; try done.
    intros ->. by rewrite bool_decide_eq_false_2 by by intros [? [=]].
Qed.

(** C10 fails on the code. A request whose JSON body is the array
    [[1]] is not answered with 400: [content.get] raises
    [AttributeError] and Flask answers 500 (state and gauge are left as
    they were). The same happens when [state] is a list, which cannot
    be looked up in [STATE_VALUES]. *)
Theorem post_array_body_answers_500 (st : app) :
  post_admin_state (Some (JArr [JInt 1])) st = (st, 500%Z)
  /\ post_admin_state (Some (JObj [("state", JArr [])])) st = (st, 500%Z).
Proof. split; reflexivity. Qed.

End InventoryClaims.

(** ** Further properties of the control loop *)

Section LoopInvariants.

Variable a : args.

Lemma remediations_app l l' :
  remediations (l ++ l') = (remediations l + remediations l')%nat.
Proof. unfold remediations. by rewrite List.filter_app, length_app. Qed.

Lemma remediations_detection e tail :
  ev_event e = DEGRADATION_CONFIRMED \/ ev_event e = HEALTHY_AGAIN ->
  remediations (e :: tail) = remediations tail.
Proof.
  unfold remediations, is_remediation. cbn [List.filter].
  by intros [-> | ->].
Qed.

(** What one sample can do, case by case: nothing to the log; a
    detection with a failed edit; a removal; a recovery with a failed
    edit; a restoration. *)
Lemma main_body_cases w inst v :
  let w' := main_body a w (inst, v) in
  (events_log w' = events_log w
   /\ removed_instances w' = removed_instances w
   /\ upstream w' = upstream w /\ reloads w' = reloads w)
  \/ (exists e, ev_event e = DEGRADATION_CONFIRMED /\ ev_instance e = inst
      /\ events_log w' = events_log w ++ [e]
      /\ removed_instances w' = removed_instances w
      /\ upstream w' = upstream w /\ reloads w' = reloads w)
  \/ (exists e, ev_event e = DEGRADATION_CONFIRMED /\ ev_instance e = inst
      /\ (inst ∉ removed_instances w)
      /\ events_log w'
         = events_log w ++ [e; Event REMOVED_FROM_UPSTREAM inst NoDetail]
      /\ removed_instances w' = {[inst]} ∪ removed_instances w
      /\ upstream w'
         = (comment_server_in_upstream inst (dry_run a) (upstream w)).2
      /\ reloads w' = S (reloads w))
  \/ (exists e, ev_event e = HEALTHY_AGAIN /\ ev_instance e = inst
      /\ events_log w' = events_log w ++ [e]
      /\ removed_instances w' = removed_instances w
      /\ upstream w' = upstream w /\ reloads w' = reloads w)
  \/ (exists e, ev_event e = HEALTHY_AGAIN /\ ev_instance e = inst
      /\ inst ∈ removed_instances w
      /\ events_log w'
         = events_log w ++ [e; Event RESTORED_TO_UPSTREAM inst NoDetail]
      /\ removed_instances w' = removed_instances w ∖ {[inst]}
      /\ upstream w'
         = (restore_server_in_upstream inst (dry_run a) (upstream w)).2
      /\ reloads w' = S (reloads w)).
Proof.
  cbn zeta. destruct (PrimFloat.leb (threshold a) v) eqn:Hv.
  - rewrite main_body_unhealthy by done. cbn zeta.
    destruct (attempts_disable a w (inst, v)) eqn:Hatt; [|by left].
    unfold attempts_disable in Hatt. cbn [fst snd] in Hatt.
    apply andb_prop in Hatt as [[_ Hnin%negb_true_iff]%andb_prop _].
    apply bool_decide_eq_false_1 in Hnin.
    pose proof (comment_unchanged inst (dry_run a) (upstream w)) as Hsame.
    destruct (comment_server_in_upstream inst (dry_run a) (upstream w))
      as [[] f].
    + right; right; left. eexists. by repeat split.
    + right; left. eexists. cbn in Hsame. rewrite Hsame by done.
      by repeat split.
  - rewrite main_body_healthy by done. cbn zeta.
    destruct (attempts_restore a w (inst, v)) eqn:Hatt; [|by left].
    unfold attempts_restore in Hatt. cbn [fst snd] in Hatt.
    apply andb_prop in Hatt as [_ Hin%bool_decide_eq_true_1].
    pose proof (restore_unchanged inst (dry_run a) (upstream w)) as Hsame.
    destruct (restore_server_in_upstream inst (dry_run a) (upstream w))
      as [[] f].
    + right; right; right; right. eexists. by repeat split.
    + right; right; right; left. eexists. cbn in Hsame.
      rewrite Hsame by done. by repeat split.
Qed.

(** An induction principle for the states the loop goes through. *)
Lemma main_loop_ind (P : world -> world -> Prop) :
  (forall w, P w w) ->
  (forall w w1 item, P w w1 -> P w (main_body a w1 item)) ->
  forall w polls, P w (main_loop a w polls).
Proof.
  intros Hrefl Hstep w polls. rewrite main_loop_concat.
  induction (concat polls) as [|item rest IH] using rev_ind; [apply Hrefl|].
  rewrite fold_left_app. cbn [fold_left]. by apply Hstep.
Qed.

(** X1. The log only grows: whatever the polls, the entries logged
    before are still there, in their order, at the head of the log. *)
Theorem events_log_append_only (w : world)
    (polls : list (list (string * float))) :
  exists new, events_log (main_loop a w polls) = events_log w ++ new.
Proof.
  apply (main_loop_ind (fun w w' =>
           exists new, events_log w' = events_log w ++ new)).
  - intros w0. exists []. by rewrite app_nil_r.
  - intros w0 w1 [inst v] [new Hnew].
    destruct (main_body_cases w1 inst v)
      as [(H & _)|[(e & _ & _ & H & _)|[(e & _ & _ & _ & H & _)
         |[(e & _ & _ & H & _)|(e & _ & _ & _ & H & _)]]]];
      rewrite H, Hnew, <- ?app_assoc; eauto.
Qed.

(** X2. [reload_nginx] is called once for every REMOVED_FROM_UPSTREAM
    and every RESTORED_TO_UPSTREAM entry logged, and never otherwise. *)
Theorem reload_per_remediation (w : world)
    (polls : list (list (string * float))) :
  let w' := main_loop a w polls in
  (reloads w' + remediations (events_log w)
   = reloads w + remediations (events_log w'))%nat.
Proof.
  cbn zeta.
  apply (main_loop_ind (fun w w' =>
           (reloads w' + remediations (events_log w)
            = reloads w + remediations (events_log w'))%nat)); [done|].
  intros w0 w1 [inst v] IH.
  destruct (main_body_cases w1 inst v)
    as [(H & _ & _ & R)|[(e & K & _ & H & _ & _ & R)
       |[(e & K & _ & _ & H & _ & _ & R)
       |[(e & K & _ & H & _ & _ & R)|(e & K & _ & _ & H & _ & _ & R)]]]];
    rewrite H, R, ?remediations_app, ?(remediations_detection e) by auto;
    change (remediations []) with 0%nat;
    change (remediations [Event REMOVED_FROM_UPSTREAM inst NoDetail])
      with 1%nat;
    change (remediations [Event RESTORED_TO_UPSTREAM inst NoDetail])
      with 1%nat;
    lia.
Qed.

(** X3. From the start of a run the removed set and the log agree: an
    instance is marked removed exactly when one more
    REMOVED_FROM_UPSTREAM than RESTORED_TO_UPSTREAM was logged for it,
    and the two counts are equal otherwise. *)
Theorem removed_set_matches_log (f : fs)
    (polls : list (list (string * float))) :
  log_matches (main_loop a (start f) polls).
Proof.
  apply (main_loop_ind (fun w w' => log_matches w -> log_matches w'));
    [done| |done].
  intros w0 w1 [inst v] IH H0 i. specialize (IH H0 i).
  assert (forall k k' (e : event),
            ev_event e = k' -> ev_instance e = inst ->
            count_events k i [e]
            = if event_type_eqb k' k && String.eqb inst i then 1%nat
              else 0%nat) as Hone.
  { intros k k' e <- <-. unfold count_events, is_event. cbn.
    by destruct (event_type_eqb _ _ && _). }
  destruct (main_body_cases w1 inst v)
    as [(H & S & _)|[(e & K & I & H & S & _)
       |[(e & K & I & Hnin & H & S & _)
       |[(e & K & I & H & S & _)|(e & K & I & Hin & H & S & _)]]]];
    rewrite H, S; try done.
  - rewrite !count_events_app, (Hone REMOVED_FROM_UPSTREAM _ e K I),
      (Hone RESTORED_TO_UPSTREAM _ e K I).
    cbn [event_type_eqb andb]. lia.
  - change [e; Event REMOVED_FROM_UPSTREAM inst NoDetail]
      with ([e] ++ [Event REMOVED_FROM_UPSTREAM inst NoDetail]).
    rewrite !count_events_app, (Hone REMOVED_FROM_UPSTREAM _ e K I),
      (Hone RESTORED_TO_UPSTREAM _ e K I),
      (Hone REMOVED_FROM_UPSTREAM REMOVED_FROM_UPSTREAM
         (Event REMOVED_FROM_UPSTREAM inst NoDetail)),
      (Hone RESTORED_TO_UPSTREAM REMOVED_FROM_UPSTREAM
         (Event REMOVED_FROM_UPSTREAM inst NoDetail)) by done.
    cbn [event_type_eqb andb].
    destruct (String.eqb inst i) eqn:Hi.
    + apply String.eqb_eq in Hi as <-.
      rewrite bool_decide_eq_false_2 in IH by done.
      rewrite bool_decide_eq_true_2
        by (rewrite elem_of_union, elem_of_singleton; by left).
      lia.
    + apply String.eqb_neq in Hi.
      rewrite (bool_decide_ext (i ∈ {[inst]} ∪ removed_instances w1)
                 (i ∈ removed_instances w1))
        by (rewrite elem_of_union, elem_of_singleton; intuition congruence).
      lia.
  - rewrite !count_events_app, (Hone REMOVED_FROM_UPSTREAM _ e K I),
      (Hone RESTORED_TO_UPSTREAM _ e K I).
    cbn [event_type_eqb andb]. lia.
  - change [e; Event RESTORED_TO_UPSTREAM inst NoDetail]
      with ([e] ++ [Event RESTORED_TO_UPSTREAM inst NoDetail]).
    rewrite !count_events_app, (Hone REMOVED_FROM_UPSTREAM _ e K I),
      (Hone RESTORED_TO_UPSTREAM _ e K I),
      (Hone REMOVED_FROM_UPSTREAM RESTORED_TO_UPSTREAM
         (Event RESTORED_TO_UPSTREAM inst NoDetail)),
      (Hone RESTORED_TO_UPSTREAM RESTORED_TO_UPSTREAM
         (Event RESTORED_TO_UPSTREAM inst NoDetail)) by done.
    cbn [event_type_eqb andb].
    destruct (String.eqb inst i) eqn:Hi.
    + apply String.eqb_eq in Hi as <-.
      rewrite bool_decide_eq_true_2 in IH by done.
      rewrite bool_decide_eq_false_2
        by (rewrite elem_of_difference, elem_of_singleton; tauto).
      lia.
    + apply String.eqb_neq in Hi.
      rewrite (bool_decide_ext (i ∈ removed_instances w1 ∖ {[inst]})
                 (i ∈ removed_instances w1))
        by (rewrite elem_of_difference, elem_of_singleton;
            intuition congruence).
      lia.
Qed.

End LoopInvariants.

Section LoopEdges.

Variable a : args.

(** X4. In dry-run the loop never writes the upstream file, whatever it
    decides. *)
Theorem dry_run_loop_keeps_file (w : world)
    (polls : list (list (string * float))) :
  dry_run a = true ->
  upstream (main_loop a w polls) = upstream w.
Proof.
  intros Hdry.
  apply (main_loop_ind a (fun w w' => upstream w' = upstream w)); [done|].
  intros w0 w1 [inst v] IH.
  destruct (main_body_cases a w1 inst v)
    as [(_ & _ & H & _)|[(e & _ & _ & _ & _ & H & _)
       |[(e & _ & _ & _ & _ & _ & H & _)
       |[(e & _ & _ & _ & _ & H & _)|(e & _ & _ & _ & _ & _ & H & _)]]]];
    rewrite H, ?Hdry, ?dry_run_comment, ?dry_run_restore; exact IH.
Qed.

(** X5. An instance that the polls do not report is left as it was:
    its counter, its removed flag and the entries logged for it. *)
Theorem absent_instance_untouched (inst : string) (w : world)
    (polls : list (list (string * float))) :
  samples_of inst (concat polls) = [] ->
  let w' := main_loop a w polls in
  counter_of w' inst = counter_of w inst
  /\ (inst ∈ removed_instances w' <-> inst ∈ removed_instances w)
  /\ forall k, count_events k inst (events_log w')
               = count_events k inst (events_log w).
Proof.
  cbn zeta. rewrite main_loop_concat. revert w.
  induction (concat polls) as [|[i v] rest IH]; intros w Habs; [done|].
  rewrite samples_of_cons in Habs. cbn [fold_left].
  destruct (String.eqb i inst) eqn:Hi; [done|]. apply String.eqb_neq in Hi.
  destruct (main_body_frame a w inst i v Hi) as (F1 & F2 & F3).
  destruct (IH (main_body a w (i, v)) Habs) as (H1 & H2 & H3).
  split; [by rewrite H1, F1|]. split; [by etrans|].
  intros k. by rewrite H3, F3.
Qed.

(** X6. While the upstream file is missing no edit succeeds: whatever
    the polls, the removed set stays as it was and the file stays
    missing. *)
Theorem missing_file_freezes_removed_set (w : world)
    (polls : list (list (string * float))) :
  upstream w = None ->
  removed_instances (main_loop a w polls) = removed_instances w
  /\ upstream (main_loop a w polls) = None.
Proof.
  intros Hf.
  apply (main_loop_ind a (fun w w' =>
           upstream w = None ->
           removed_instances w' = removed_instances w
           /\ upstream w' = None)); [done| |done].
  intros w0 w1 item IH H0. destruct (IH H0) as [IH1 IH2].
  destruct (upstream_missing_stays a w1 item IH2) as [U1 U2].
  by rewrite U1, U2.
Qed.

Lemma is_nan_spec (x : float) :
  PrimFloat.is_nan x = true -> Prim2SF x = S754_nan.
Proof.
  unfold PrimFloat.is_nan. rewrite FloatAxioms.eqb_spec.
  unfold SFeqb, SFcompare.
  destruct (Prim2SF x) as [s|s| |s m e]; try done; try (by destruct s).
  rewrite Z.compare_refl, Pos.compare_cont_refl. by destruct s.
Qed.

(** The test [val >= threshold] fails as soon as one side is a NaN. *)
Lemma nan_fails_threshold (t v : float) :
  PrimFloat.is_nan t = true \/ PrimFloat.is_nan v = true ->
  PrimFloat.leb t v = false.
Proof.
  rewrite FloatAxioms.leb_spec. unfold SFleb, SFcompare.
  intros [H%is_nan_spec|H%is_nan_spec]; rewrite H; [done|].
  by destruct (Prim2SF t).
Qed.

(** X7. A NaN counts as healthy: when the sample or the threshold is a
    NaN, the sample resets the counter of the instance and can start no
    removal; for an instance that is not marked removed nothing is
    logged and the file is left alone. *)
Theorem nan_sample_is_healthy (w : world) (inst : string) (v : float) :
  PrimFloat.is_nan (threshold a) = true \/ PrimFloat.is_nan v = true ->
  (0 <= counter_of w inst)%Z ->
  let w' := main_body a w (inst, v) in
  counter_of w' inst = 0%Z
  /\ (inst ∉ removed_instances w ->
      removed_instances w' = removed_instances w
      /\ events_log w' = events_log w
      /\ upstream w' = upstream w).
Proof.
  intros Hv%nan_fails_threshold Hc. cbn zeta.
  rewrite main_body_healthy by done. cbn zeta.
  unfold attempts_restore. cbn [fst snd]. rewrite Hv. cbn [negb andb].
  split.
  - assert (forall s l f r,
              counter_of (World (if (0 <? counter_of w inst)%Z
                                 then <[inst := 0%Z]> (state_counters w)
                                 else state_counters w) s l f r) inst = 0%Z)
      as H0.
    { intros. destruct (0 <? counter_of w inst)%Z eqn:Hlt.
      - unfold counter_of. cbn. by rewrite lookup_insert_eq.
      - apply Z.ltb_ge in Hlt. unfold counter_of in *. cbn. lia. }
    destruct (bool_decide _); [|apply H0].
    destruct (restore_server_in_upstream _ _ _) as [[] f]; apply H0.
  - intros Hnin. by rewrite bool_decide_eq_false_2 by done.
Qed.

(** With no instance marked removed, samples that all fail the test
    [val >= threshold] log nothing and edit nothing. *)
Lemma quiet_run samples :
  forall w,
    removed_instances w = ∅ ->
    forallb (fun kv => negb (PrimFloat.leb (threshold a) kv.2)) samples
    = true ->
    let w' := fold_left (main_body a) samples w in
    events_log w' = events_log w /\ upstream w' = upstream w
    /\ removed_instances w' = ∅.
Proof.
  induction samples as [|[i v] rest IH]; intros w Hrem Hall; [done|].
  cbn [forallb snd] in Hall. apply andb_prop in Hall as [Hv%negb_true_iff Hall].
  cbn zeta. cbn [fold_left].
  assert (events_log (main_body a w (i, v)) = events_log w
          /\ upstream (main_body a w (i, v)) = upstream w
          /\ removed_instances (main_body a w (i, v)) = ∅) as (E & U & R).
  { rewrite main_body_healthy by done. cbn zeta.
    unfold attempts_restore. cbn [fst snd].
    rewrite Hv, Hrem, bool_decide_eq_false_2 by apply not_elem_of_empty.
    done. }
  destruct (IH (main_body a w (i, v)) R Hall) as (H1 & H2 & H3).
  by rewrite H1, H2, E, U.
Qed.

(** X8. A run in which no sample reaches the threshold (or no poll
    brings data) logs nothing, leaves the upstream file alone, and at
    the end does not write the events file: what an earlier run saved
    there stays. *)
Theorem quiet_run_keeps_events_file (f : fs)
    (polls : list (list (string * float))) (can_write : bool)
    (events_file : option (list event)) :
  forallb (fun kv => negb (PrimFloat.leb (threshold a) kv.2)) (concat polls)
  = true ->
  let '(w, saved) := main a f polls can_write events_file in
  saved = events_file /\ events_log w = [] /\ upstream w = f.
Proof.
  intros Hall. unfold main. rewrite main_loop_concat.
  destruct (quiet_run (concat polls) (start f) eq_refl Hall) as (E & U & _).
  cbn zeta in E, U. rewrite E, U. done.
Qed.

End LoopEdges.

Section LoopEdgeWitnesses.

Lemma dry_run_loop_keeps_file_witness :
  upstream (main_loop (Args 2 1%float true) (start (Some conf))
              [[(svc, 1%float)]; [(svc, 1%float)]; [(svc, 0%float)]])
  = Some conf.
Proof.
  apply (dry_run_loop_keeps_file (Args 2 1%float true) (start (Some conf))).
  reflexivity.
Defined.

Lemma absent_instance_untouched_witness :
  let w := World {[svc := 1%Z]} ∅ [] (Some conf) 0 in
  counter_of (main_loop a0 w [[("svc-2:8000", 1%float)];
                              [("svc-2:8000", 1%float)]]) svc
  = counter_of w svc.
Proof.
  intros w.
  apply (absent_instance_untouched a0 svc w
           [[("svc-2:8000", 1%float)]; [("svc-2:8000", 1%float)]]).
  reflexivity.
Defined.

Lemma missing_file_freezes_removed_set_witness :
  removed_instances (main_loop a0 (start None)
                       [[(svc, 1%float)]; [(svc, 1%float)]])
  = ∅
  /\ upstream (main_loop a0 (start None)
                 [[(svc, 1%float)]; [(svc, 1%float)]]) = None.
Proof.
  apply (missing_file_freezes_removed_set a0 (start None)). reflexivity.
Defined.

Lemma nan_sample_is_healthy_witness :
  counter_of (main_body a0 (World {[svc := 5%Z]} ∅ [] (Some conf) 0)
                (svc, nan)) svc = 0%Z.
Proof.
  apply (nan_sample_is_healthy a0 (World {[svc := 5%Z]} ∅ [] (Some conf) 0)
           svc nan).
  - right. reflexivity.
  - vm_compute. discriminate.
Defined.

Lemma quiet_run_keeps_events_file_witness :
  let old := Some [Event REMOVED_FROM_UPSTREAM svc NoDetail] in
  (main a0 (Some conf) [[(svc, 0%float)]; []; [(svc, 0.5%float)]] true old).2
  = old.
Proof.
  intros old.
  pose proof (quiet_run_keeps_events_file a0 (Some conf)
                [[(svc, 0%float)]; []; [(svc, 0.5%float)]] true old eq_refl)
    as H.
  destruct (main a0 (Some conf) _ true old) as [w saved]. apply H.
Defined.

End LoopEdgeWitnesses.

(** ** Further properties of the upstream editor *)

Section EditorEdges.

Lemma is_line_suffix p r :
  is_line (String.append p r) = true -> r <> EmptyString -> is_line r = true.
Proof.
  intros H Hr. induction p as [|c p IH]; [done|].
  rewrite append_cons, is_line_cons in H by by apply append_nonempty.
  apply andb_prop in H as [_ H]. by apply IH.
Qed.

Lemma marker_not_terminated k : ends_lf (marker k) = false.
Proof.
  unfold marker. rewrite <- append_assoc. by rewrite ends_lf_append.
Qed.

Lemma spaces_not_marked k r :
  startswith (String.append "    " r) (marker k) = false.
Proof.
  destruct (marker_head k) as [m ->]. unfold startswith.
  by rewrite !append_cons, prefix_cons.
Qed.

(** The enabled form of a line is a line again, whatever the key. *)
Lemma enabled_form_line k l :
  is_line l = true ->
  is_line (enabled_form k l) = true
  /\ (ends_lf l = true -> ends_lf (enabled_form k l) = true).
Proof.
  intros Hl. unfold enabled_form, startswith.
  destruct (String.prefix (marker k) l) eqn:Hp; [|done].
  apply prefix_inv in Hp.
  destruct (slice_from (String.length (marker k)) l) as [|c r] eqn:Hrest.
  - split; [done|]. rewrite Hp, append_nil_r, marker_not_terminated. done.
  - rewrite Hp in Hl. apply is_line_suffix in Hl; [|done]. split.
    + by apply is_line_append.
    + rewrite Hp at 1. by rewrite !ends_lf_append.
Qed.

Lemma enabled_form_no_cr k l :
  occurs CR l = false -> occurs CR (enabled_form k l) = false.
Proof.
  intros Hl. unfold enabled_form, startswith.
  destruct (String.prefix (marker k) l) eqn:Hp; [|done].
  apply prefix_inv in Hp. rewrite Hp, occurs_append in Hl.
  apply orb_false_elim in Hl as [_ Hr]. by rewrite occurs_append, Hr.
Qed.

Lemma readlines_enabled k content :
  readlines (writelines (map (enabled_form k) (readlines content)))
  = map (enabled_form k) (readlines content).
Proof.
  apply readlines_writelines.
  - apply chained_map; [|apply chained_readlines].
    intros l Hl. by apply enabled_form_line.
  - apply existsb_map_false; [apply readlines_no_cr|].
    apply enabled_form_no_cr.
Qed.

(** X9. Enable is idempotent, for every key: when a committed enable
    reports a change, a second one on the file it left reports none and
    leaves that file as it is. *)
Theorem enable_idempotent (k : string) (f f1 : fs) :
  restore_server_in_upstream k false f = (true, f1) ->
  restore_server_in_upstream k false f1 = (false, f1).
Proof.
  intros H. destruct f as [content|]; [|done].
  rewrite restore_server_spec in H. cbn zeta in H.
  injection H as Hch <-. rewrite Hch. cbn [andb negb].
  rewrite restore_server_spec, readlines_enabled. cbn zeta.
  assert (existsb (fun l => startswith l (marker k))
            (map (enabled_form k) (readlines content)) = false) as ->;
    [|done].
  apply not_true_is_false.
  intros (l' & (l & <- & Hl)%in_map_iff & Hp)%existsb_exists.
  unfold enabled_form in Hp.
  destruct (startswith l (marker k)) eqn:Hl0.
  - by rewrite spaces_not_marked in Hp.
  - by rewrite Hl0 in Hp.
Qed.

(** X10. A removal can be undone: for a key that holds no line feed,
    after a committed disable that reported a change, enable finds the
    marked entry and reports a change. *)
Theorem disable_can_be_undone (k : string) (f f1 : fs) :
  occurs LF k = false ->
  comment_server_in_upstream k false f = (true, f1) ->
  (restore_server_in_upstream k false f1).1 = true.
Proof.
  intros Hk H. destruct f as [content|]; [|done].
  rewrite comment_server_spec in H. cbn zeta in H.
  injection H as Hch <-. rewrite Hch. cbn [andb negb].
  rewrite restore_server_spec, readlines_disabled by done. cbn zeta.
  cbn [fst]. apply existsb_exists in Hch as (l & Hl & Hlive).
  apply existsb_exists. exists (disabled_form k l). split.
  - by apply in_map.
  - unfold disabled_form, startswith. rewrite Hlive. apply prefix_append.
Qed.

(** X11. An instance the file does not mention: when the key occurs in
    no line, disable and enable report no change and leave the file as
    it is, committed or not. *)
Theorem unknown_instance_no_change (k : string) (dry : bool) (f : fs) :
  forallb (fun ln => negb (contains k ln)) (file_lines f) = true ->
  comment_server_in_upstream k dry f = (false, f)
  /\ restore_server_in_upstream k dry f = (false, f).
Proof.
  destruct f as [content|]; [|done]. cbn [file_lines]. intros Habs.
  rewrite comment_server_spec, restore_server_spec. cbn zeta.
  assert (existsb (is_live_entry_of k) (readlines content) = false) as ->.
  { apply not_true_is_false. intros (l & Hl & Hlive)%existsb_exists.
    rewrite forallb_forall in Habs. specialize (Habs l Hl).
    by rewrite (live_contains _ _ Hlive) in Habs. }
  assert (existsb (fun l => startswith l (marker k)) (readlines content)
          = false) as ->; [|done].
  apply not_true_is_false. intros (l & Hl & Hp)%existsb_exists.
  rewrite forallb_forall in Habs. specialize (Habs l Hl).
  by rewrite (marker_prefix_contains _ _ Hp) in Habs.
Qed.

Lemma prefix_append_same p x y :
  String.prefix (String.append p x) (String.append p y) = String.prefix x y.
Proof.
  induction p as [|c p IH]; [done|].
  by rewrite !append_cons, prefix_cons, Ascii.eqb_refl, IH.
Qed.

Lemma key_prefix_eq k1 :
  forall k2 r,
    occurs " " k1 = false -> occurs " " k2 = false ->
    String.prefix (String.append k1 " ")
                  (String.append k2 (String.append " " r)) = true ->
    k1 = k2.
Proof.
  induction k1 as [|c k1 IH]; intros [|d k2] r H1 H2 Hp; [done| | |].
  - rewrite !append_cons, append_nil_l, prefix_cons in Hp.
    cbn [occurs] in H2. apply orb_false_elim in H2 as [Hd _].
    rewrite Ascii.eqb_sym, Hd in Hp. done.
  - rewrite !append_cons, append_nil_l, prefix_cons in Hp.
    cbn [occurs] in H1. apply orb_false_elim in H1 as [Hc _].
    by rewrite Hc in Hp.
  - rewrite !append_cons, prefix_cons in Hp.
    apply andb_prop in Hp as [Hcd%Ascii.eqb_eq Hp]. subst d.
    cbn [occurs] in H1, H2. apply orb_false_elim in H1 as [_ H1].
    apply orb_false_elim in H2 as [_ H2]. f_equal. by eapply IH.
Qed.

(** X12. An entry disabled for one instance is safe from the edits of
    another: disable of any other key leaves the marked line as it is,
    and so does enable of a different key when neither key holds a
    space. *)
Theorem marked_entry_frame (k1 k2 rest : string) (lines : list string)
    (i : nat) :
  lines !! i = Some (String.append (marker k2) rest) ->
  (comment_loop k1 lines).2 !! i = Some (String.append (marker k2) rest)
  /\ (occurs " " k1 = false -> occurs " " k2 = false -> k1 <> k2 ->
      (restore_loop k1 lines).2 !! i
      = Some (String.append (marker k2) rest)).
Proof.
  intros Hi. rewrite comment_loop_spec, restore_loop_spec. cbn [snd]. split.
  - apply lookup_map_fixed; [done|]. unfold disabled_form.
    by rewrite marked_not_live.
  - intros H1 H2 Hne. apply lookup_map_fixed; [done|].
    unfold enabled_form, startswith.
    destruct (String.prefix (marker k1) (String.append (marker k2) rest))
      eqn:Hp; [|done].
    unfold marker in Hp. rewrite !append_assoc, prefix_append_same in Hp.
    by destruct (Hne (key_prefix_eq k1 k2 rest H1 H2 Hp)).
Qed.

End EditorEdges.

Section EditorEdgeWitnesses.

Lemma enable_idempotent_witness :
  restore_server_in_upstream svc false (Some conf) = (false, Some conf).
Proof. apply (enable_idempotent svc (Some marked)). reflexivity. Defined.

Lemma disable_can_be_undone_witness :
  (restore_server_in_upstream svc false (Some marked)).1 = true.
Proof.
  apply (disable_can_be_undone svc (Some conf)); reflexivity.
Defined.

Lemma unknown_instance_no_change_witness :
  comment_server_in_upstream "svc-9:8000" false (Some conf)
  = (false, Some conf)
  /\ restore_server_in_upstream "svc-9:8000" false (Some conf)
     = (false, Some conf).
Proof.
  apply (unknown_instance_no_change "svc-9:8000" false (Some conf)).
  reflexivity.
Defined.

Lemma marked_entry_frame_witness :
  (restore_loop "svc-1" [marked]).2 !! 0%nat = Some marked.
Proof.
  apply (marked_entry_frame "svc-1" svc (nl "server svc-1:8000;") [marked] 0);
    [reflexivity|reflexivity|reflexivity|discriminate].
Defined.

End EditorEdgeWitnesses.

(** ** Further properties of the health feed *)

Section FeedEdges.

Variable float_of_str : string -> option float.

(** X13. No data without a success envelope: a falsy answer of
    [query_prom] ([None], an empty object, an empty list, 0, ...) and an
    envelope whose status is not the string "success" give the empty
    mapping, and nothing is raised. *)
Theorem parse_without_success (prom_json : json) :
  truthy prom_json = false
  \/ (exists m, prom_json = JObj m
                /\ assoc "status" m <> Some (JStr "success")) ->
  parse_inventory_states float_of_str prom_json = Ok [].
Proof.
  intros [H|(m & -> & H)].
  - unfold parse_inventory_states. by rewrite H.
  - apply parse_not_success. by intros s Hs ->.
Qed.

Lemma dict_store_keys (d : list (json * float)) l v :
  Forall text_key d ->
  map fst (dict_store d (JStr l) v) = map fst d
  \/ ((JStr l ∉ map fst d)
      /\ map fst (dict_store d (JStr l) v) = map fst d ++ [JStr l]).
Proof.
  induction 1 as [|[k w] d (x & Hk & _) _ IH]; [right; split; [|done]|].
  { apply not_elem_of_nil. }
  cbn in Hk. subst k. cbn [dict_store].
  change (key_eqb (JStr x) (JStr l)) with (String.eqb x l).
  destruct (String.eqb x l) eqn:Hx; [by left|].
  apply String.eqb_neq in Hx. cbn [map fst].
  destruct IH as [->|[Hnin ->]]; [by left|]. right. split; [|done].
  rewrite elem_of_cons. intros [[=]|]; congruence.
Qed.

Lemma dict_store_in (d : list (json * float)) l v :
  Forall text_key d -> In (JStr l, v) (dict_store d (JStr l) v).
Proof.
  induction 1 as [|[k w] d (x & Hk & _) _ IH]; [by left|]. cbn in Hk.
  subst k. cbn [dict_store].
  change (key_eqb (JStr x) (JStr l)) with (String.eqb x l).
  destruct (String.eqb x l) eqn:Hx.
  - apply String.eqb_eq in Hx as ->. by left.
  - by right.
Qed.

Lemma dict_store_text (d : list (json * float)) l v :
  l <> EmptyString -> Forall text_key d ->
  Forall text_key (dict_store d (JStr l) v).
Proof.
  intros Hl. induction 1 as [|[k w] d Hkw Hd IH].
  - apply Forall_cons. split; [by exists l|done].
  - cbn [dict_store]. destruct (key_eqb k (JStr l)).
    + apply Forall_cons. split; [|done].
      destruct Hkw as (x & Hk & Hx). by exists x.
    + by apply Forall_cons.
Qed.

Lemma entry_label_nonempty item l v :
  entry_of float_of_str item = Some (l, v) -> l <> EmptyString.
Proof.
  unfold entry_of, label_of. destruct item as [| | | | | |fields]; try done.
  set (metric := match assoc "metric" fields with
                 | Some (JObj m) => m
                 | _ => []
                 end).
  assert (forall o s, text_label o = Some s -> s <> EmptyString) as Ht.
  { intros [[| | | |x| |]|] s; try done. cbn.
    destruct (String.eqb x EmptyString) eqn:Hx; [done|].
    intros [= <-]. by apply String.eqb_neq. }
  destruct (text_label (assoc "instance" metric)) as [s|] eqn:Hi.
  - destruct (value_of _ _); [|done]. intros [= <- _]. by eapply Ht.
  - destruct (text_label (assoc "job" metric)) as [s|] eqn:Hj; [|done].
    destruct (value_of _ _); [|done]. intros [= <- _]. by eapply Ht.
Qed.

Lemma add_entries_text items :
  forall out,
    Forall text_key out -> NoDup (map fst out) ->
    let out' := fold_left (add_entry float_of_str) items out in
    Forall text_key out' /\ NoDup (map fst out').
Proof.
  induction items as [|item items IH]; intros out Ht Hnd; [done|].
  cbn zeta. cbn [fold_left]. apply IH.
  - unfold add_entry. destruct (entry_of _ _) as [[l v]|] eqn:He; [|done].
    apply dict_store_text; [|done]. by eapply entry_label_nonempty.
  - unfold add_entry. destruct (entry_of _ _) as [[l v]|] eqn:He; [|done].
    destruct (dict_store_keys out l v Ht) as [->|[Hnin ->]]; [done|].
    apply NoDup_app. split; [done|]. split; [|apply NoDup_singleton].
    intros k Hk ->%list_elem_of_singleton. done.
Qed.

(** X14. On a success envelope whose results have the expected shape,
    [parse_inventory_states] raises nothing: it returns the mapping
    built by storing, result after result, the reading of every result
    that has a label and a readable value and skipping the others. The
    keys of that mapping are distinct non-empty strings, and the reading
    of the last result, when it has one, is in it (it replaces an
    earlier reading of the same instance). *)
Theorem parse_success_keys (m d : list (string * json))
    (items : list json) :
  assoc "status" m = Some (JStr "success") ->
  assoc "data" m = Some (JObj d) ->
  assoc "result" d = Some (JArr items) ->
  Forall (result_shaped) items ->
  let out := fold_left (add_entry float_of_str) items [] in
  parse_inventory_states float_of_str (JObj m) = Ok out
  /\ NoDup (map fst out)
  /\ Forall text_key out
  /\ forall before item l v,
       items = before ++ [item] ->
       entry_of float_of_str item = Some (l, v) ->
       In (JStr l, v) out.
Proof.
  intros Hs Hd Hr Hitems. cbn zeta.
  split; [by apply (parse_success_envelope float_of_str m d items)|].
  destruct (add_entries_text items [] (Forall_nil_2 _) NoDup_nil_2)
    as [Ht Hnd].
  split; [done|]. split; [done|].
  intros before item l v -> He. rewrite fold_left_app. cbn [fold_left].
  unfold add_entry at 1. rewrite He. apply dict_store_in.
  by destruct (add_entries_text before [] (Forall_nil_2 _) NoDup_nil_2).
Qed.

End FeedEdges.

Section FeedEdgeWitnesses.

Lemma parse_without_success_witness :
  parse_inventory_states demo_float
    (JObj [("status", JStr "error"); ("errorType", JStr "bad_data")])
  = Ok [].
Proof.
  apply (parse_without_success demo_float). right. eexists.
  split; [reflexivity|discriminate].
Defined.

Lemma parse_success_keys_witness :
  parse_inventory_states demo_float (JObj demo_envelope)
  = Ok [(JStr "svc-1:8000", 1%float)].
Proof.
  apply (parse_success_keys demo_float demo_envelope
           [("resultType", JStr "vector"); ("result", JArr demo_results)]
           demo_results); try reflexivity.
  repeat constructor.
Defined.

End FeedEdgeWitnesses.

Section FeedUnavailableWitness.

Lemma health_query_unavailable_witness :
  health_query demo_float (Response 503 (Some (JObj demo_envelope))) = Ok [].
Proof.
  apply (health_query_unavailable demo_float). right.
  exists 503%Z, (Some (JObj demo_envelope)). split; [reflexivity|].
  left. reflexivity.
Defined.

End FeedUnavailableWitness.

(** ** Further properties of the inventory service *)

Section InventoryEdges.

(** X16. Served one request after another from the loaded module, the
    service always holds one of the three states together with its
    encoding in the gauge: healthy with 0, degraded with 1, down
    with 2. *)
Theorem served_state_is_valid (bodies : list (option json)) :
  let st := serve bodies loaded in
  (service_state st = "healthy" /\ SERVICE_STATE st = 0%Z)
  \/ (service_state st = "degraded" /\ SERVICE_STATE st = 1%Z)
  \/ (service_state st = "down" /\ SERVICE_STATE st = 2%Z).
Proof.
  cbn zeta. apply state_value_cases.
  unfold serve. assert (consistent loaded) as H by reflexivity.
  revert H. generalize loaded. induction bodies as [|b bodies IH];
    intros st Hst; [done|].
  cbn [fold_left]. by apply IH, post_consistent.
Qed.

(** X17. [POST /admin/state] answers 200, 400 or 500; it changes the
    service only when it answers 200, and then to the state named in
    the body, with the gauge set to its encoding. *)
Theorem post_changes_only_on_200 (body : option json) (st : app) :
  let '(st', code) := post_admin_state body st in
  (code = 200%Z
   /\ exists m s v, body = Some (JObj m) /\ assoc "state" m = Some (JStr s)
                    /\ state_value s STATE_VALUES = Some v
                    /\ st' = App s v)
  \/ ((code = 400%Z \/ code = 500%Z) /\ st' = st).
Proof.
  unfold post_admin_state, update_admin_state.
  assert (forall m : list (string * json),
            (if truthy (JObj m) then JObj m else JObj []) = JObj m) as Hobj
    by by intros [|? ?].
  destruct body as [[|b|z|f|s|l|m]|]; cbn [truthy];
    try (right; split; [|done]; cbn; auto; fail);
    try (destruct (negb _); right; split; [|done|idtac|done]; cbn; auto; fail);
    try (destruct b; right; split; [|done|idtac|done]; cbn; auto; fail);
    try (destruct l; right; split; [|done|idtac|done]; cbn; auto; fail).
  change (match m with [] => false | _ :: _ => true end)
    with (truthy (JObj m)). rewrite Hobj. cbn [py_get]. unfold default.
  destruct (assoc "state" m) as [[| | | |s| |]|] eqn:Hm;
    cbn [from_option id in_STATE_VALUES];
    try (right; split; [|done]; cbn; auto; fail).
  destruct (state_value s STATE_VALUES) as [v|] eqn:Hs.
  - rewrite bool_decide_eq_true_2 by eauto. unfold set_state. rewrite Hs.
    left. split; [done|]. by exists m, s, v.
  - rewrite bool_decide_eq_false_2 by by intros [? [=]].
    right. split; [|done]. cbn. auto.
Qed.

(** X18. What a valid request stored is what [GET /admin/state] then
    returns, with status 200. *)
Theorem post_then_get_state (m : list (string * json)) (s : string)
    (v : Z) (st : app) :
  assoc "state" m = Some (JStr s) ->
  state_value s STATE_VALUES = Some v ->
  get_admin_state (post_admin_state (Some (JObj m)) st).1
  = (JObj [("state", JStr s)], 200%Z).
Proof. intros Hm Hs. by rewrite (post_valid_state m s v st Hm Hs). Qed.

(** X19. [GET /health] follows the gauge the monitor reads: from the
    loaded module and after any requests, it answers 200 with
    healthy=true exactly when the gauge is 0, 503 when it is 1 and 500
    when it is 2, healthy=false in both. *)
Theorem health_follows_gauge (bodies : list (option json)) :
  let st := serve bodies loaded in
  let '(payload, code) := health st in
  assoc "healthy" (match payload with JObj m => m | _ => [] end)
  = Some (JBool (SERVICE_STATE st =? 0)%Z)
  /\ code = (if (SERVICE_STATE st =? 0)%Z then 200
             else if (SERVICE_STATE st =? 1)%Z then 503 else 500)%Z.
Proof.
  cbn zeta. unfold health, get_state.
  assert (consistent (serve bodies loaded)) as H.
  { unfold serve. assert (consistent loaded) as H by reflexivity.
    revert H. generalize loaded. induction bodies as [|b bodies IH];
      intros st Hst; [done|].
    cbn [fold_left]. by apply IH, post_consistent. }
  destruct (state_value_cases _ _ H) as [[-> ->]|[[-> ->]|[-> ->]]]; done.
Qed.

(** X20. [GET /inventario] after any requests: with the gauge at 0 it
    answers 200 with the sample items whatever is drawn; with the gauge
    at 2 it answers 500; with the gauge at 1 it answers 500 when the
    number drawn is below 0.5 and 200 with the items otherwise. *)
Theorem inventario_follows_gauge (bodies : list (option json))
    (draw : float) :
  let st := serve bodies loaded in
  let '(payload, code) := inventario draw st in
  let fails := (SERVICE_STATE st =? 2)%Z
               || ((SERVICE_STATE st =? 1)%Z && PrimFloat.ltb draw 0.5%float) in
  code = (if fails then 500 else 200)%Z
  /\ assoc "items" (match payload with JObj m => m | _ => [] end)
     = (if fails then None else Some INVENTORY_SAMPLE).
Proof.
  cbn zeta. unfold inventario, get_state.
  assert (consistent (serve bodies loaded)) as H.
  { unfold serve. assert (consistent loaded) as H by reflexivity.
    revert H. generalize loaded. induction bodies as [|b bodies IH];
      intros st Hst; [done|].
    cbn [fold_left]. by apply IH, post_consistent. }
  destruct (state_value_cases _ _ H) as [[-> ->]|[[-> ->]|[-> ->]]];
    cbn [String.eqb Ascii.eqb Bool.eqb andb orb Z.eqb]; try done.
  by destruct (PrimFloat.ltb draw 0.5%float).
Qed.

End InventoryEdges.

Section InventoryEdgeWitnesses.

Lemma post_then_get_state_witness :
  get_admin_state
    (post_admin_state (Some (JObj [("state", JStr "degraded")])) loaded).1
  = (JObj [("state", JStr "degraded")], 200%Z).
Proof.
  apply (post_then_get_state [("state", JStr "degraded")] "degraded" 1 loaded);
    reflexivity.
Defined.

Lemma post_invalid_object_witness :
  post_admin_state (Some (JObj [("state", JStr "broken")])) loaded
  = (loaded, 400%Z).
Proof.
  apply (post_invalid_object (Some (JObj [("state", JStr "broken")])) loaded).
  reflexivity.
Defined.

End InventoryEdgeWitnesses.

(** ** The loop and the editor together *)

Section LoopAndEditor.

Variable a : args.

Lemma count_events_single k inst e :
  count_events k inst [e]
  = if event_type_eqb (ev_event e) k && String.eqb (ev_instance e) inst
    then 1%nat else 0%nat.
Proof.
  unfold count_events, is_event. cbn.
  by destruct (event_type_eqb _ _ && _).
Qed.

(** X21. No remediation without its detection in the log: for every
    instance, at most as many REMOVED_FROM_UPSTREAM as
    DEGRADATION_CONFIRMED entries and at most as many
    RESTORED_TO_UPSTREAM as HEALTHY_AGAIN entries were logged since the
    start of the run. *)
Theorem remediation_needs_detection (f : fs)
    (polls : list (list (string * float))) (inst : string) :
  let log := events_log (main_loop a (start f) polls) in
  (count_events REMOVED_FROM_UPSTREAM inst log
   <= count_events DEGRADATION_CONFIRMED inst log)%nat
  /\ (count_events RESTORED_TO_UPSTREAM inst log
      <= count_events HEALTHY_AGAIN inst log)%nat.
Proof.
  cbn zeta.
  apply (main_loop_ind a (fun w w' =>
           ((count_events REMOVED_FROM_UPSTREAM inst (events_log w)
             <= count_events DEGRADATION_CONFIRMED inst (events_log w))%nat
            /\ (count_events RESTORED_TO_UPSTREAM inst (events_log w)
                <= count_events HEALTHY_AGAIN inst (events_log w))%nat) ->
           (count_events REMOVED_FROM_UPSTREAM inst (events_log w')
            <= count_events DEGRADATION_CONFIRMED inst (events_log w'))%nat
           /\ (count_events RESTORED_TO_UPSTREAM inst (events_log w')
               <= count_events HEALTHY_AGAIN inst (events_log w'))%nat));
    [done| |by split].
  intros w0 w1 [i v] IH H0. destruct (IH H0) as [IH1 IH2].
  destruct (main_body_cases a w1 i v)
    as [(H & _)|[(e & K & I & H & _)|[(e & K & I & _ & H & _)
       |[(e & K & I & H & _)|(e & K & I & _ & H & _)]]]];
    rewrite H; [done|..];
    try change [e; Event REMOVED_FROM_UPSTREAM i NoDetail]
      with ([e] ++ [Event REMOVED_FROM_UPSTREAM i NoDetail]);
    try change [e; Event RESTORED_TO_UPSTREAM i NoDetail]
      with ([e] ++ [Event RESTORED_TO_UPSTREAM i NoDetail]);
    rewrite !count_events_app, !count_events_single, K, I;
    cbn [ev_event ev_instance event_type_eqb andb];
    destruct (String.eqb i inst); lia.
Qed.

Lemma dry_run_step_keeps_file w item :
  dry_run a = true -> upstream (main_body a w item) = upstream w.
Proof.
  intros Hdry. destruct item as [inst v].
  destruct (main_body_cases a w inst v)
    as [(_ & _ & H & _)|[(e & _ & _ & _ & _ & H & _)
       |[(e & _ & _ & _ & _ & _ & H & _)
       |[(e & _ & _ & _ & _ & H & _)|(e & _ & _ & _ & _ & _ & H & _)]]]];
    by rewrite H, ?Hdry, ?dry_run_comment, ?dry_run_restore.
Qed.

(** X22. In dry-run a removal is never taken back unless the file
    already holds the marker: the disable only pretends to write, so
    when the restore finds no marked line for the instance, the instance
    stays marked removed whatever it reports afterwards. *)
Theorem dry_run_never_restores (inst : string) (w : world)
    (polls : list (list (string * float))) :
  dry_run a = true ->
  restore_changes a w inst = false ->
  inst ∈ removed_instances w ->
  inst ∈ removed_instances (main_loop a w polls).
Proof.
  intros Hdry Hr Hin.
  apply (main_loop_ind a (fun w w' =>
           restore_changes a w inst = false ->
           inst ∈ removed_instances w ->
           upstream w' = upstream w /\ inst ∈ removed_instances w'));
    [done| |done|done].
  intros w0 w1 [i v] IH Hr0 H0. destruct (IH Hr0 H0) as [IHf IHr]. split.
  { by rewrite dry_run_step_keeps_file. }
  destruct (decide (i = inst)) as [->|Hne].
  - destruct (PrimFloat.leb (threshold a) v) eqn:Hv.
    + rewrite main_body_unhealthy by done. cbn zeta.
      unfold attempts_disable. cbn [fst snd].
      by rewrite bool_decide_eq_true_2, andb_false_r by done.
    + rewrite main_body_healthy by done. cbn zeta.
      destruct (attempts_restore a w1 (inst, v)); [|done].
      unfold restore_changes in Hr0. rewrite <- IHf in Hr0.
      by destruct (restore_server_in_upstream _ _ _) as [[] f'].
  - by apply (main_body_frame a w1 inst i v Hne).
Qed.

End LoopAndEditor.

Section RemovalAndRecovery.

Variable a : args.

Lemma restore_finds_disabled k content :
  occurs LF k = false ->
  existsb (is_live_entry_of k) (readlines content) = true ->
  (restore_server_in_upstream k false
     (Some (writelines (map (disabled_form k) (readlines content))))).1
  = true.
Proof.
  intros Hk Hch. rewrite restore_server_spec, readlines_disabled by done.
  cbn zeta. cbn [fst]. apply existsb_exists in Hch as (l & Hl & Hlive).
  apply existsb_exists. exists (disabled_form k l). split.
  - by apply in_map.
  - unfold disabled_form, startswith. rewrite Hlive. apply prefix_append.
Qed.

(** The state a removal leaves. *)
Lemma removal_fields w inst v :
  PrimFloat.leb (threshold a) v = true ->
  attempts_disable a w (inst, v) = true ->
  disable_changes a w inst = true ->
  let w' := main_body a w (inst, v) in
  counter_of w' inst = (counter_of w inst + 1)%Z
  /\ removed_instances w' = {[inst]} ∪ removed_instances w
  /\ events_log w'
     = events_log w ++ [Event DEGRADATION_CONFIRMED inst
                          (ValueCount v (counter_of w inst + 1));
                        Event REMOVED_FROM_UPSTREAM inst NoDetail]
  /\ upstream w'
     = (comment_server_in_upstream inst (dry_run a) (upstream w)).2
  /\ reloads w' = S (reloads w).
Proof.
  intros Hv Hatt Hd. cbn zeta. rewrite main_body_unhealthy, Hatt by done.
  cbn zeta. unfold disable_changes in Hd.
  destruct (comment_server_in_upstream _ _ _) as [ch f]. cbn in Hd. subst.
  unfold counter_of at 1. cbn. by rewrite lookup_insert_eq.
Qed.

(** The state a restoration leaves. *)
Lemma restore_fields w inst v :
  PrimFloat.leb (threshold a) v = false ->
  inst ∈ removed_instances w ->
  restore_changes a w inst = true ->
  let w' := main_body a w (inst, v) in
  (counter_of w' inst = 0%Z
   \/ (counter_of w' inst = counter_of w inst /\ (counter_of w inst <= 0)%Z))
  /\ removed_instances w' = removed_instances w ∖ {[inst]}
  /\ events_log w'
     = events_log w ++ [Event HEALTHY_AGAIN inst (Value v);
                        Event RESTORED_TO_UPSTREAM inst NoDetail]
  /\ reloads w' = S (reloads w).
Proof.
  intros Hv Hin Hr. cbn zeta. rewrite main_body_healthy by done. cbn zeta.
  unfold attempts_restore. cbn [fst snd].
  rewrite Hv, bool_decide_eq_true_2 by done. cbn [negb andb].
  unfold restore_changes in Hr.
  destruct (restore_server_in_upstream _ _ _) as [ch f]. cbn in Hr. subst.
  cbn [removed_instances events_log reloads]. split; [|done].
  destruct (0 <? counter_of w inst)%Z eqn:Hpos.
  - left. unfold counter_of at 1. cbn. by rewrite lookup_insert_eq.
  - right. apply Z.ltb_ge in Hpos. done.
Qed.

(** X23. A committed removal is taken back by the next healthy sample.
    With edits committed, a key without line feed and a counter that is
    not negative: when an unhealthy
    sample makes the loop disable the instance, the file it leaves lets
    the restore succeed, so a healthy sample that follows clears the
    flag and resets the counter; the four entries DEGRADATION_CONFIRMED,
    REMOVED_FROM_UPSTREAM, HEALTHY_AGAIN, RESTORED_TO_UPSTREAM are
    logged in this order and [reload_nginx] is called twice. *)
Theorem removal_then_recovery (w : world) (inst : string) (v v' : float) :
  dry_run a = false ->
  occurs LF inst = false ->
  (0 <= counter_of w inst)%Z ->
  attempts_disable a w (inst, v) = true ->
  disable_changes a w inst = true ->
  PrimFloat.leb (threshold a) v' = false ->
  let w1 := main_body a w (inst, v) in
  let w2 := main_body a w1 (inst, v') in
  inst ∈ removed_instances w1
  /\ (inst ∉ removed_instances w2)
  /\ counter_of w2 inst = 0%Z
  /\ events_log w2
     = events_log w
       ++ [Event DEGRADATION_CONFIRMED inst
             (ValueCount v (counter_of w inst + 1));
           Event REMOVED_FROM_UPSTREAM inst NoDetail;
           Event HEALTHY_AGAIN inst (Value v');
           Event RESTORED_TO_UPSTREAM inst NoDetail]
  /\ reloads w2 = S (S (reloads w)).
Proof.
  intros Hdry Hk Hpos Hatt Hd Hv'. cbn zeta.
  assert (PrimFloat.leb (threshold a) v = true) as Hv.
  { unfold attempts_disable in Hatt. cbn [fst snd] in Hatt.
    by apply andb_prop in Hatt as [[? _]%andb_prop _]. }
  destruct (removal_fields w inst v Hv Hatt Hd) as (C1 & R1 & E1 & U1 & N1).
  set (w1 := main_body a w (inst, v)) in *.
  assert (inst ∈ removed_instances w1) as Hin1
    by (rewrite R1, elem_of_union, elem_of_singleton; by left).
  assert (restore_changes a w1 inst = true) as Hr.
  { unfold restore_changes, disable_changes in *. rewrite U1.
    rewrite Hdry in Hd |- *.
    destruct (upstream w) as [content|]; [|done].
    rewrite comment_server_spec in Hd |- *. cbn zeta in Hd |- *.
    cbn [fst] in Hd. rewrite Hd. cbn [andb negb snd].
    by apply restore_finds_disabled. }
  destruct (restore_fields w1 inst v' Hv' Hin1 Hr) as (C2 & R2 & E2 & N2).
  split; [done|]. split.
  { rewrite R2, elem_of_difference, elem_of_singleton. tauto. }
  split.
  { destruct C2 as [C2|[C2 C2']]; [done|]. rewrite C1 in C2'. lia. }
  split; [|by rewrite N2, N1].
  by rewrite E2, E1, <- app_assoc.
Qed.

End RemovalAndRecovery.

Section RemovalWitnesses.

Lemma removal_then_recovery_witness :
  let w := World {[svc := 1%Z]} ∅ [] (Some conf) 0 in
  svc ∉ removed_instances
          (main_body a0 (main_body a0 w (svc, 1%float)) (svc, 0%float)).
Proof.
  intros w.
  apply (removal_then_recovery a0 w svc 1%float 0%float); try reflexivity.
  vm_compute. discriminate.
Defined.

Lemma dry_run_never_restores_witness :
  let w := World ∅ {[svc]} [] (Some conf) 0 in
  svc ∈ removed_instances
          (main_loop (Args 2 1%float true) w
             [[(svc, 0%float)]; [(svc, 0%float)]]).
Proof.
  intros w.
  apply (dry_run_never_restores (Args 2 1%float true) svc w);
    [reflexivity|reflexivity|].
  vm_compute. reflexivity.
Defined.

Lemma detection_logged_on_every_poll_witness :
  count_events DEGRADATION_CONFIRMED svc
    (events_log (main_loop a0 (World {[svc := 1%Z]} ∅ [] None 0)
                   [[(svc, 1%float)]; [(svc, 1%float)]; [(svc, 1%float)]]))
  = 3%nat.
Proof.
  apply (detection_logged_on_every_poll a0 svc
           (World {[svc := 1%Z]} ∅ [] None 0)
           [[(svc, 1%float)]; [(svc, 1%float)]; [(svc, 1%float)]]).
  - reflexivity.
  - apply not_elem_of_empty.
  - vm_compute. discriminate.
  - reflexivity.
Defined.

End RemovalWitnesses.
